(** * go-http: request reading, connection semantics and protocol sets

    A shallow embedding of the request-side core of the go-http fork of
    net/http (the request reader, the header fix-up of the response reader
    and the protocol set of http.go) together with the properties its
    design document states about it.

    Go strings are byte strings and are modelled by [string]; [http.Header]
    (a Go map from field name to the list of its values) is modelled by
    [gmap string (list string)]; the [uint8] behind [Protocols] is a [Z]
    kept below 256; [int64] fields are [Z]. *)

From Stdlib Require Import ZArith Lia Bool Ascii String.
From stdpp Require Import base option list strings gmap.

Local Open Scope Z_scope.

(** ** The few functions of Go's [strings] package the code calls *)

(** [s[lo:hi]] *)
Definition slice (s : string) (lo hi : nat) : string :=
  String.substring lo (hi - lo) s.

(** [s[lo:]] *)
Definition slice_from (s : string) (lo : nat) : string :=
  slice s lo (String.length s).

(** [strings.HasPrefix(s, prefix)] *)
Definition HasPrefix (s prefix : string) : bool := String.prefix prefix s.

(** [strings.Index(s, substr)]: the first position at which [substr]
    occurs, [None] standing for Go's -1. *)
Fixpoint Index (s substr : string) : option nat :=
  if HasPrefix s substr then Some 0%nat
  else match s with
       | EmptyString => None
       | String _ s' => S <$> Index s' substr
       end.

(** [strings.Cut(s, sep)] *)
Definition Cut (s sep : string) : string * string * bool :=
  match Index s sep with
  | Some i => (slice s 0 i, slice_from s (i + String.length sep), true)
  | None => (s, "", false)
  end.

(** [strings.Join(elems, sep)] *)
Fixpoint Join (elems : list string) (sep : string) : string :=
  match elems with
  | [] => ""
  | [x] => x
  | x :: rest => x +:+ sep +:+ Join rest sep
  end.

(** [strings.Count(s, " ")] for a one-byte separator. *)
Fixpoint CountByte (s : string) (c : ascii) : nat :=
  match s with
  | EmptyString => 0%nat
  | String a s' => ((if Ascii.eqb a c then 1 else 0) + CountByte s' c)%nat
  end.

(** ** http.go: the set of protocols *)

Record Protocols : Type := { bits : Z }.

Definition uint8 (z : Z) : Z := z mod 256.

Definition protoHTTP1 : Z := Z.shiftl 1 0.
Definition protoHTTP2 : Z := Z.shiftl 1 1.
Definition protoUnencryptedHTTP2 : Z := Z.shiftl 1 2.

(** The zero value: the empty set of protocols. *)
Definition zeroProtocols : Protocols := {| bits := 0 |}.

Definition setBit (p : Protocols) (bit : Z) (ok : bool) : Protocols :=
  if ok then {| bits := uint8 (Z.lor (bits p) bit) |}
  else {| bits := uint8 (Z.ldiff (bits p) bit) |}.

Definition HTTP1 (p : Protocols) : bool :=
  negb (Z.land (bits p) protoHTTP1 =? 0).
Definition SetHTTP1 (p : Protocols) (ok : bool) : Protocols :=
  setBit p protoHTTP1 ok.

Definition HTTP2 (p : Protocols) : bool :=
  negb (Z.land (bits p) protoHTTP2 =? 0).
Definition SetHTTP2 (p : Protocols) (ok : bool) : Protocols :=
  setBit p protoHTTP2 ok.

Definition UnencryptedHTTP2 (p : Protocols) : bool :=
  negb (Z.land (bits p) protoUnencryptedHTTP2 =? 0).
Definition SetUnencryptedHTTP2 (p : Protocols) (ok : bool) : Protocols :=
  setBit p protoUnencryptedHTTP2 ok.

Definition Protocols_String (p : Protocols) : string :=
  let s : list string := [] in
  let s := if HTTP1 p then s ++ ["HTTP1"] else s in
  let s := if HTTP2 p then s ++ ["HTTP2"] else s in
  let s := if UnencryptedHTTP2 p then s ++ ["UnencryptedHTTP2"] else s in
  "{" +:+ Join s "," +:+ "}".

(** The values a program can build: the field is unexported, so every
    [Protocols] starts as the zero value and changes only through the
    three setters. *)
Inductive reachable : Protocols -> Prop :=
| reach_zero : reachable zeroProtocols
| reach_HTTP1 p ok : reachable p -> reachable (SetHTTP1 p ok)
| reach_HTTP2 p ok : reachable p -> reachable (SetHTTP2 p ok)
| reach_UnencryptedHTTP2 p ok :
    reachable p -> reachable (SetUnencryptedHTTP2 p ok).

(** ** Data carried by a request *)

(** [http.Header] *)
Abbreviation http_Header := (gmap string (list string)).

(** [h[key]]: the values of a field, the nil slice when it is absent. *)
Definition values (h : http_Header) (key : string) : list string :=
  default [] (h !! key).

(** [h.Get(key)] for a key already in canonical form ("Connection",
    "Upgrade"): the first value of the field, or the empty string. *)
Definition Header_Get (h : http_Header) (key : string) : string :=
  match h !! key with
  | Some (v :: _) => v
  | _ => ""
  end.

(** The errors [readRequest] can hand back: the two sentinels of package
    [io], the errors built by [badStringError], and errors made from a
    fixed text. *)
Inductive error : Type :=
| io_EOF
| io_ErrUnexpectedEOF
| badStringError (what val : string)
| Errorf (msg : string).

Inductive result (A : Type) : Type :=
| Ok (a : A)
| Err (e : error).
Arguments Ok {A} a.
Arguments Err {A} e.

(** The part of [url.URL] the code looks at. *)
Module url.
Record URL : Type := {
  Scheme : string;
  Host : string;
  Path : string;
  RawQuery : string
}.

(** [u.Scheme = s] *)
Definition set_Scheme (u : URL) (s : string) : URL :=
  {| Scheme := s; Host := Host u; Path := Path u; RawQuery := RawQuery u |}.
End url.

(** A request body ([io.ReadCloser]): the nil interface, the shared
    [http.NoBody] value, or some other reader. *)
Inductive ReadCloser : Type :=
| nilBody
| NoBody
| bodyReader (id : nat).

Definition ReadCloser_eqb (a b : ReadCloser) : bool :=
  match a, b with
  | nilBody, nilBody | NoBody, NoBody => true
  | bodyReader i, bodyReader j => Nat.eqb i j
  | _, _ => false
  end.

(** The fields of [http.Request] the code reads or writes.  [GetBody] is
    [None] for a nil function value.  Every request the code inspects
    through [URL] was given one by [readRequest]. *)
Record Request : Type := {
  Method : string;
  URL : url.URL;
  Proto : string;
  ProtoMajor : Z;
  ProtoMinor : Z;
  Header : http_Header;
  Body : ReadCloser;
  GetBody : option (unit -> result ReadCloser);
  ContentLength : Z;
  Close : bool;
  Host : string;
  RequestURI : string
}.

(** [req.ContentLength = n; req.Close = c] *)
Definition set_ContentLength_Close (req : Request) (n : Z) (c : bool) : Request :=
  {| Method := Method req; URL := URL req; Proto := Proto req;
     ProtoMajor := ProtoMajor req; ProtoMinor := ProtoMinor req;
     Header := Header req; Body := Body req; GetBody := GetBody req;
     ContentLength := n; Close := c;
     Host := Host req; RequestURI := RequestURI req |}.

(** ** The request and response readers: functions that need no collaborator *)

Definition valueOrDefault (value def : string) : string :=
  if negb (String.eqb value "") then value else def.

Definition parseRequestLine (line : string) : string * string * string * bool :=
  let '(method, rest, ok1) := Cut line " " in
  let '(requestURI, proto, ok2) := Cut rest " " in
  if negb ok1 || negb ok2 then ("", "", "", false)
  else (method, requestURI, proto, true).

Definition isH2UpgradeRequest (req : Request) : bool :=
  String.eqb (Method req) "PRI" && Nat.eqb (size (Header req)) 0
  && String.eqb (url.Path (URL req)) "*" && String.eqb (Proto req) "HTTP/2.0".

Definition isReplayableRequest (req : Request) : bool :=
  if ReadCloser_eqb (Body req) nilBody || ReadCloser_eqb (Body req) NoBody
     || bool_decide (is_Some (GetBody req)) then
    let m := valueOrDefault (Method req) "GET" in
    if String.eqb m "GET" || String.eqb m "HEAD"
       || String.eqb m "OPTIONS" || String.eqb m "TRACE" then true
    else
      let exists_ := bool_decide (is_Some (Header req !! "Idempotency-Key")) in
      let exists_ :=
        if negb exists_
        then bool_decide (is_Some (Header req !! "X-Idempotency-Key"))
        else exists_ in
      if exists_ then true else false
  else false.

(** The header map is updated in place in Go; here the updated map is
    returned. *)
Definition fixPragmaCacheControl (header : http_Header) : http_Header :=
  match header !! "Pragma" with
  | Some hp =>
      if Nat.ltb 0 (length hp) && String.eqb (nth 0 hp "") "no-cache" then
        match header !! "Cache-Control" with
        | Some _ => header
        | None => <["Cache-Control" := ["no-cache"]]> header
        end
      else header
  | None => header
  end.

(** ** The collaborators of the request reader

    What [readRequest] and its neighbours call and is defined elsewhere:
    the line and header reader of
    net/textproto over the connection's buffered reader, the token test of
    httpguts, the version and URL parsers of the standard library, and the
    package's own header helpers and body-framing resolver.  They are taken
    as an interface; every theorem holds for all its implementations. *)
Class Collaborators : Type := {
  (** the state of the buffered reader the request is read from *)
  Reader : Type;
  (** [tp.ReadLine()] *)
  tp_ReadLine : Reader -> result string * Reader;
  (** [tp.ReadMIMEHeader()] *)
  tp_ReadMIMEHeader : Reader -> result http_Header * Reader;
  (** [httpguts.ValidHeaderFieldName(v)] *)
  ValidHeaderFieldName : string -> bool;
  (** [http.ParseHTTPVersion(vers)]: major and minor, [None] for ok=false *)
  ParseHTTPVersion : string -> option (Z * Z);
  (** [url.ParseRequestURI(rawurl)] *)
  ParseRequestURI : string -> result url.URL;
  (** [getFromHeader(h, key)] *)
  getFromHeader : http_Header -> string -> string;
  (** [shouldClose(major, minor, header, removeCloseHeader)] *)
  shouldClose : Z -> Z -> http_Header -> bool -> bool;
  (** [readTransfer(req, b)]: the request as the call leaves it *)
  readTransfer : Request -> Reader -> result Request * Reader;
  (** [hasToken(v, token)] *)
  hasToken : string -> string -> bool;
  (** [ascii.EqualFold(s, t)] *)
  EqualFold : string -> string -> bool
}.

Section Reading.
Context `{Collaborators}.

Definition isToken (v : string) : bool := ValidHeaderFieldName v.

Definition validMethod (method : string) : bool := isToken method.

Definition requestRequiresHTTP1 (req : Request) : bool :=
  hasToken (Header_Get (Header req) "Connection") "upgrade"
  && EqualFold (Header_Get (Header req) "Upgrade") "websocket".

(** Reading threads the reader's state and may fail. *)
Definition M (A : Type) : Type := Reader -> result A * Reader.

Definition ret {A} (a : A) : M A := fun b => (Ok a, b).
Definition fail {A} (e : error) : M A := fun b => (Err e, b).
Definition lift {A} (r : result A) : M A := fun b => (r, b).
Definition bind {A B} (m : M A) (k : A -> M B) : M B := fun b =>
  match m b with
  | (Ok a, b') => k a b'
  | (Err e, b') => (Err e, b')
  end.

(** The deferred function of [readRequest]: once registered, it turns an
    [io.EOF] result into [io.ErrUnexpectedEOF]. *)
Definition deferEOF {A} (m : M A) : M A := fun b =>
  match m b with
  | (Err io_EOF, b') => (Err io_ErrUnexpectedEOF, b')
  | r => r
  end.

Notation "x <- m ;; k" := (bind m (fun x => k))
  (at level 100, m at next level, right associativity).

Definition readRequest : M Request :=
  (* First line: GET /index.html HTTP/1.0 *)
  s <- tp_ReadLine ;;
  deferEOF (
    let '(method, requestURI, proto, ok) := parseRequestLine s in
    if negb ok then fail (badStringError "malformed HTTP request" s) else
    if negb (validMethod method) then
      fail (badStringError "invalid method" method) else
    let rawurl := requestURI in
    match ParseHTTPVersion proto with
    | None => fail (badStringError "malformed HTTP version" proto)
    | Some (major, minor) =>
      let justAuthority :=
        String.eqb method "CONNECT" && negb (HasPrefix rawurl "/") in
      let rawurl := if justAuthority then "http://" +:+ rawurl else rawurl in
      u <- lift (ParseRequestURI rawurl) ;;
      (* Strip the bogus "http://" back off. *)
      let u := if justAuthority then url.set_Scheme u "" else u in
      (* Subsequent lines: Key: value. *)
      mimeHeader <- tp_ReadMIMEHeader ;;
      let header := mimeHeader in
      if Nat.ltb 1 (length (values header "Host")) then
        fail (Errorf "too many Host headers") else
      let host := url.Host u in
      let host :=
        if String.eqb host "" then getFromHeader header "Host" else host in
      let header := fixPragmaCacheControl header in
      let close := shouldClose major minor header false in
      req <- readTransfer
               {| Method := method; URL := u; Proto := proto;
                  ProtoMajor := major; ProtoMinor := minor;
                  Header := header; Body := nilBody; GetBody := None;
                  ContentLength := 0; Close := close;
                  Host := host; RequestURI := requestURI |} ;;
      if isH2UpgradeRequest req then
        ret (set_ContentLength_Close req (-1) true)
      else ret req
    end).

End Reading.

(** ** One implementation of the collaborators

    A reader that plays back a script of lines and header blocks, and
    straightforward versions of the parsers and helpers.  The theorems do
    not depend on it; it serves to run [readRequest] on concrete
    connections. *)
Module Scripted.

Inductive item : Type :=
| aLine (s : string)
| aHeaderBlock (h : http_Header).

(** The end of the script is the end of the stream. *)
Definition ReadLine (b : list item) : result string * list item :=
  match b with
  | aLine s :: b' => (Ok s, b')
  | aHeaderBlock _ :: _ => (Err (Errorf "script: a line was expected"), b)
  | [] => (Err io_EOF, [])
  end.

Definition ReadMIMEHeader (b : list item) : result http_Header * list item :=
  match b with
  | aHeaderBlock h :: b' => (Ok h, b')
  | aLine s :: b' => (Err (badStringError "malformed MIME header line" s), b')
  | [] => (Err io_EOF, [])
  end.

Definition byte (c : ascii) : Z := Z.of_nat (nat_of_ascii c).

Definition between (lo hi : Z) (c : ascii) : bool :=
  (lo <=? byte c) && (byte c <=? hi).

(** The token characters: letters, digits and [!#$%&'*+-.^_`|~]. *)
Definition isTokenChar (c : ascii) : bool :=
  between 48 57 c || between 65 90 c || between 97 122 c
  || existsb (Ascii.eqb c) (list_ascii_of_string "!#$%&'*+-.^_`|~").

Definition ValidHeaderFieldName (v : string) : bool :=
  negb (String.eqb v "") && forallb isTokenChar (list_ascii_of_string v).

Definition digit (c : ascii) : option Z :=
  if between 48 57 c then Some (byte c - 48) else None.

(** "HTTP/X.Y" with one digit each. *)
Definition ParseHTTPVersion (vers : string) : option (Z * Z) :=
  if HasPrefix vers "HTTP/" && Nat.eqb (String.length vers) 8 then
    match String.get 5 vers, String.get 6 vers, String.get 7 vers with
    | Some x, Some dot, Some y =>
        if Ascii.eqb dot "." then
          match digit x, digit y with
          | Some major, Some minor => Some (major, minor)
          | _, _ => None
          end
        else None
    | _, _, _ => None
    end
  else None.

(** Request targets in asterisk form, origin form ("/path?query") and
    absolute form over http ("http://host/path?query"). *)
Definition ParseRequestURI (rawurl : string) : result url.URL :=
  if String.eqb rawurl "" then Err (Errorf "parse: empty url")
  else if String.eqb rawurl "*" then
    Ok {| url.Scheme := ""; url.Host := ""; url.Path := "*";
          url.RawQuery := "" |}
  else
    let '(rest, query, _) := Cut rawurl "?" in
    if HasPrefix rest "/" then
      Ok {| url.Scheme := ""; url.Host := ""; url.Path := rest;
            url.RawQuery := query |}
    else if HasPrefix rest "http://" then
      let authority := slice_from rest 7 in
      match Index authority "/" with
      | Some i =>
          Ok {| url.Scheme := "http"; url.Host := slice authority 0 i;
                url.Path := slice_from authority i; url.RawQuery := query |}
      | None =>
          Ok {| url.Scheme := "http"; url.Host := authority;
                url.Path := ""; url.RawQuery := query |}
      end
    else Err (Errorf "parse: invalid URI for request").

Definition lower (c : ascii) : ascii :=
  if between 65 90 c then ascii_of_nat (nat_of_ascii c + 32) else c.

Fixpoint EqualFold (s t : string) : bool :=
  match s, t with
  | EmptyString, EmptyString => true
  | String a s', String b t' => Ascii.eqb (lower a) (lower b) && EqualFold s' t'
  | _, _ => false
  end.

Definition isTokenBoundary (c : ascii) : bool :=
  Ascii.eqb c " " || Ascii.eqb c "," || Ascii.eqb c "009".

(** Does [token] start the suffix [v], case-insensitively, and end on a
    token boundary? *)
Definition tokenHere (v token : string) : bool :=
  let n := String.length token in
  Nat.leb n (String.length v)
  && EqualFold (slice v 0 n) token
  && match String.get n v with
     | Some c => isTokenBoundary c
     | None => true
     end.

Fixpoint scanToken (startsOnBoundary : bool) (v token : string) : bool :=
  (startsOnBoundary && tokenHere v token)
  || match v with
     | EmptyString => false
     | String c v' => scanToken (isTokenBoundary c) v' token
     end.

Definition hasToken (v token : string) : bool :=
  if Nat.ltb (String.length v) (String.length token) || String.eqb token ""
  then false
  else if String.eqb v token then true
  else scanToken true v token.

Definition getFromHeader (h : http_Header) (key : string) : string :=
  Header_Get h key.

(** HTTP/1.0 closes unless asked to keep alive; later versions stay open
    unless asked to close. *)
Definition shouldClose (major minor : Z) (header : http_Header)
    (removeCloseHeader : bool) : bool :=
  if major <? 1 then true
  else
    let conv := values header "Connection" in
    let hasClose := existsb (fun v => hasToken v "close") conv in
    if (major =? 1) && (minor =? 0) then
      hasClose || negb (existsb (fun v => hasToken v "keep-alive") conv)
    else hasClose.

(** Only messages with no body framing header: they have no body. *)
Definition readTransfer (req : Request) (b : list item)
    : result Request * list item :=
  match Header req !! "Content-Length", Header req !! "Transfer-Encoding" with
  | None, None =>
      (Ok {| Method := Method req; URL := URL req; Proto := Proto req;
             ProtoMajor := ProtoMajor req; ProtoMinor := ProtoMinor req;
             Header := Header req; Body := NoBody; GetBody := GetBody req;
             ContentLength := 0; Close := Close req;
             Host := Host req; RequestURI := RequestURI req |}, b)
  | _, _ => (Err (Errorf "script: message bodies are not played back"), b)
  end.

#[export] Instance collaborators : Collaborators :=
  Build_Collaborators (list item) ReadLine ReadMIMEHeader
    ValidHeaderFieldName ParseHTTPVersion ParseRequestURI
    getFromHeader shouldClose readTransfer hasToken EqualFold.

End Scripted.

(** ** Vocabulary of the statements *)

(** What the deferred function makes of an error. *)
Definition unexpected (e : error) : error :=
  match e with
  | io_EOF => io_ErrUnexpectedEOF
  | _ => e
  end.

(** The text handed to the URL parser, and the URL kept from its answer. *)
Definition justAuthority (method target : string) : bool :=
  String.eqb method "CONNECT" && negb (HasPrefix target "/").

Definition parsedText (method target : string) : string :=
  if justAuthority method target then "http://" +:+ target else target.

Definition keptURL (method target : string) (u : url.URL) : url.URL :=
  if justAuthority method target then url.set_Scheme u "" else u.

(** The last step of [readRequest], on the request [readTransfer] left. *)
Definition forceH2Upgrade (req : Request) : Request :=
  if isH2UpgradeRequest req then set_ContentLength_Close req (-1) true
  else req.

(** The request as it stands when [readTransfer] is called. *)
Definition requestAtTransfer `{Collaborators} (method target proto : string)
    (major minor : Z) (u : url.URL) (h : http_Header) : Request :=
  let u := keptURL method target u in
  let header := fixPragmaCacheControl h in
  {| Method := method; URL := u; Proto := proto;
     ProtoMajor := major; ProtoMinor := minor;
     Header := header; Body := nilBody; GetBody := None;
     ContentLength := 0;
     Close := shouldClose major minor header false;
     Host := if String.eqb (url.Host u) ""
             then getFromHeader h "Host" else url.Host u;
     RequestURI := target |}.

(** The members in declaration order, each with its membership test and
    the call that enables it. *)
Definition memberTable
  : list (string * (Protocols -> bool) * (Protocols -> Protocols)) :=
  [ ("HTTP1", HTTP1, fun p => SetHTTP1 p true);
    ("HTTP2", HTTP2, fun p => SetHTTP2 p true);
    ("UnencryptedHTTP2", UnencryptedHTTP2,
     fun p => SetUnencryptedHTTP2 p true) ].

(** The names of the members of [p], in declaration order. *)
Definition enabledMembers (p : Protocols) : list string :=
  map (fun m => fst (fst m)) (filter (fun m => snd (fst m) p = true) memberTable).

(** Split a text at its commas. *)
Fixpoint splitCommas (s : string) : list string :=
  match s with
  | EmptyString => [""]
  | String c s' =>
      if Ascii.eqb c "," then "" :: splitCommas s'
      else match splitCommas s' with
           | x :: rest => String c x :: rest
           | [] => [String c ""]
           end
  end.

(** The member names a rendering lists between its braces. *)
Definition listed (rendering : string) : list string :=
  let inner := slice rendering 1 (String.length rendering - 1) in
  if String.eqb inner "" then [] else splitCommas inner.

(** Call the setter of the named member with [true]. *)
Definition enable (p : Protocols) (name : string) : Protocols :=
  match find (fun m => String.eqb (fst (fst m)) name) memberTable with
  | Some m => snd m p
  | None => p
  end.

(** Start from the zero value and enable the named members one by one. *)
Definition reenable (names : list string) : Protocols :=
  fold_left enable names zeroProtocols.

(** [req.Method = m] *)
Definition set_Method (req : Request) (m : string) : Request :=
  {| Method := m; URL := URL req; Proto := Proto req;
     ProtoMajor := ProtoMajor req; ProtoMinor := ProtoMinor req;
     Header := Header req; Body := Body req; GetBody := GetBody req;
     ContentLength := ContentLength req; Close := Close req;
     Host := Host req; RequestURI := RequestURI req |}.

(** An outgoing request as a caller builds it: method, header, body and
    the function that makes the body anew; the other fields are zero. *)
Definition outgoing (method : string) (header : http_Header)
    (body : ReadCloser) (getBody : option (unit -> result ReadCloser)) : Request :=
  {| Method := method;
     URL := {| url.Scheme := ""; url.Host := ""; url.Path := "";
               url.RawQuery := "" |};
     Proto := ""; ProtoMajor := 0; ProtoMinor := 0;
     Header := header; Body := body; GetBody := getBody;
     ContentLength := 0; Close := false; Host := ""; RequestURI := "" |}.

Definition noBody (req : Request) : Prop :=
  Body req = nilBody \/ Body req = NoBody.

Definition bodyRecreatable (req : Request) : Prop := is_Some (GetBody req).

Definition safeMethod (m : string) : Prop :=
  m = "GET" \/ m = "HEAD" \/ m = "OPTIONS" \/ m = "TRACE".

Definition idempotencyKeyed (req : Request) : Prop :=
  is_Some (Header req !! "Idempotency-Key")
  \/ is_Some (Header req !! "X-Idempotency-Key").

(** The first value of the Pragma entry is "no-cache". *)
Definition pragmaNoCacheFirst (h : http_Header) : Prop :=
  exists rest, h !! "Pragma" = Some ("no-cache" :: rest).


(** ** The other functions of the request and response readers *)

Definition requestOutgoingLength (req : Request) : Z :=
  if ReadCloser_eqb (Body req) nilBody || ReadCloser_eqb (Body req) NoBody
  then 0
  else if negb (ContentLength req =? 0) then ContentLength req
  else -1.

Section Intent.
Context `{Collaborators}.

Definition requestWantsHttp10KeepAlive (r : Request) : bool :=
  if negb (ProtoMajor r =? 1) || negb (ProtoMinor r =? 0) then false
  else hasToken (getFromHeader (Header r) "Connection") "keep-alive".

Definition requestWantsClose (req : Request) : bool :=
  if Close req then true
  else hasToken (getFromHeader (Header req) "Connection") "close".

End Intent.

(** [http.StatusSwitchingProtocols] *)
Definition StatusSwitchingProtocols : Z := 101.

(** The fields of [http.Response] the code reads. *)
Module resp.
Record Response : Type := {
  StatusCode : Z;
  Header : http_Header
}.
End resp.

Section Switching.
(** [httpguts.HeaderValuesContainsToken(values, token)] *)
Variable HeaderValuesContainsToken : list string -> string -> bool.

Definition isProtocolSwitchHeader (h : http_Header) : bool :=
  negb (String.eqb (Header_Get h "Upgrade") "")
  && HeaderValuesContainsToken (values h "Connection") "Upgrade".

Definition isProtocolSwitchResponse (code : Z) (h : http_Header) : bool :=
  (code =? StatusSwitchingProtocols) && isProtocolSwitchHeader h.

Definition isProtocolSwitchResp (r : resp.Response) : bool :=
  isProtocolSwitchResponse (resp.StatusCode r) (resp.Header r).

End Switching.

(** What [checkRequestBodyError] asks of package [reflect]: the kind of a
    type, its package path and name, and the element type of a pointer. *)
Inductive Kind : Type := Ptr | Struct | OtherKind.

Inductive rtype : Type :=
| plainType (isStruct : bool) (pkgPath name : string)
| pointerType (pkgPath name : string) (elem : rtype).

Definition rtype_Kind (t : rtype) : Kind :=
  match t with
  | plainType true _ _ => Struct
  | plainType false _ _ => OtherKind
  | pointerType _ _ _ => Ptr
  end.

(** Only asked of a pointer type. *)
Definition rtype_Elem (t : rtype) : rtype :=
  match t with
  | pointerType _ _ elem => elem
  | plainType _ _ _ => t
  end.

Definition rtype_PkgPath (t : rtype) : string :=
  match t with
  | plainType _ pkgPath _ | pointerType pkgPath _ _ => pkgPath
  end.

Definition rtype_Name (t : rtype) : string :=
  match t with
  | plainType _ _ name | pointerType _ name _ => name
  end.

Definition Kind_eqb (a b : Kind) : bool :=
  match a, b with
  | Ptr, Ptr | Struct, Struct | OtherKind, OtherKind => true
  | _, _ => false
  end.

(** An error value is nil ([None]) or has a dynamic type and the text its
    [Error] method returns.  The result is the new error, nil when [None],
    and the flag. *)
Definition checkRequestBodyError (err : option (rtype * string))
    : option error * bool :=
  match err with
  | None => (None, false)
  | Some (t, text) =>
      let t := if Kind_eqb (rtype_Kind t) Ptr then rtype_Elem t else t in
      if negb (Kind_eqb (rtype_Kind t) Struct) then (None, false) else
      if negb (String.eqb (rtype_PkgPath t) "net/http") then (None, false) else
      let name := rtype_Name t in
      if negb (String.eqb name "requestBodyReadError") then (None, false) else
      (Some (Errorf text), true)
  end.

(** ** The collaborators over the bytes of a connection

    A second implementation, in which the reader's state is the text still
    to come on the connection.  As with bufio and net/textproto, a line
    ends at a line feed, loses that line feed and a carriage return before
    it, and a last line cut short by the end of the stream is handed over
    as it is, with no error; only a read that finds no byte at all reports
    [io.EOF].  The parsers and helpers are those of [Scripted]. *)
Module Wire.

Definition LF : ascii := "010".
Definition CR : ascii := "013".

Definition endsWithCR (line : string) : bool :=
  match String.get (String.length line - 1) line with
  | Some c => Ascii.eqb c CR
  | None => false
  end.

Definition ReadLine (b : string) : result string * string :=
  if String.eqb b "" then (Err io_EOF, b)
  else match Index b (String LF "") with
       | Some i =>
           let line := slice b 0 i in
           let line :=
             if endsWithCR line
             then slice line 0 (String.length line - 1) else line in
           (Ok line, slice_from b (i + 1))
       | None => (Ok b, "")
       end.

Definition blank (c : ascii) : bool := Ascii.eqb c " " || Ascii.eqb c "009".

Fixpoint trimLeft (s : string) : string :=
  match s with
  | String c s' => if blank c then trimLeft s' else s
  | EmptyString => s
  end.

Fixpoint reverse (s acc : string) : string :=
  match s with
  | EmptyString => acc
  | String c s' => reverse s' (String c acc)
  end.

Definition trim (s : string) : string :=
  reverse (trimLeft (reverse (trimLeft s) "")) "".

Definition upper (c : ascii) : ascii :=
  if Scripted.between 97 122 c then ascii_of_nat (nat_of_ascii c - 32) else c.

(** The canonical form of a field name: a capital at the start and after
    each hyphen, small letters elsewhere. *)
Fixpoint canonical (capital : bool) (key : string) : string :=
  match key with
  | EmptyString => EmptyString
  | String c key' =>
      String (if capital then upper c else Scripted.lower c)
             (canonical (Ascii.eqb c "-") key')
  end.

(** Field lines "name: value" up to the empty line.  Each round takes at
    least one byte off the stream, so one round more than the stream has
    bytes is enough. *)
Fixpoint readFieldLines (rounds : nat) (h : http_Header) (b : string)
    : result http_Header * string :=
  match rounds with
  | O => (Err io_EOF, b)
  | S rounds' =>
      match ReadLine b with
      | (Err e, b') => (Err e, b')
      | (Ok line, b') =>
          if String.eqb line "" then (Ok h, b')
          else
            let '(name, value, found) := Cut line ":" in
            if negb found || negb (Scripted.ValidHeaderFieldName name) then
              (Err (badStringError "malformed MIME header line" line), b')
            else
              let key := canonical true name in
              readFieldLines rounds'
                (<[key := values h key ++ [trim value]]> h) b'
      end
  end.

Definition ReadMIMEHeader (b : string) : result http_Header * string :=
  readFieldLines (S (String.length b)) ∅ b.

(** Only messages with no body framing header: they have no body. *)
Definition readTransfer (req : Request) (b : string)
    : result Request * string :=
  match Header req !! "Content-Length", Header req !! "Transfer-Encoding" with
  | None, None =>
      (Ok {| Method := Method req; URL := URL req; Proto := Proto req;
             ProtoMajor := ProtoMajor req; ProtoMinor := ProtoMinor req;
             Header := Header req; Body := NoBody; GetBody := GetBody req;
             ContentLength := 0; Close := Close req;
             Host := Host req; RequestURI := RequestURI req |}, b)
  | _, _ => (Err (Errorf "wire: message bodies are not read"), b)
  end.

#[export] Instance collaborators : Collaborators :=
  Build_Collaborators string ReadLine ReadMIMEHeader
    Scripted.ValidHeaderFieldName Scripted.ParseHTTPVersion
    Scripted.ParseRequestURI Scripted.getFromHeader Scripted.shouldClose
    readTransfer Scripted.hasToken Scripted.EqualFold.

End Wire.

(** ** More vocabulary *)

(** [readTransfer] leaves the URL and the Host alone. *)
Definition readTransfer_keeps_URL_Host `{Collaborators} : Prop :=
  forall q b q' b',
    readTransfer q b = (Ok q', b') ->
    URL q' = URL q /\ Host q' = Host q.

(** The type [requestBodyReadError] of package net/http, or a pointer to
    it. *)
Definition isBodyReadErrorType (t : rtype) : Prop :=
  t = plainType true "net/http" "requestBodyReadError"
  \/ exists pkgPath name,
      t = pointerType pkgPath name
            (plainType true "net/http" "requestBodyReadError").

(** [readTransfer] leaves alone what the start line and the Host rule
    gave the request. *)
Definition readTransfer_keeps_head `{Collaborators} : Prop :=
  forall q b q' b',
    readTransfer q b = (Ok q', b') ->
    Method q' = Method q /\ RequestURI q' = RequestURI q
    /\ Proto q' = Proto q /\ ProtoMajor q' = ProtoMajor q
    /\ ProtoMinor q' = ProtoMinor q /\ URL q' = URL q /\ Host q' = Host q.

(** The ways [readRequest] fails, stage by stage, each with the error it
    returns and the state it leaves the reader in. *)
Inductive readFailure `{Collaborators} (b : Reader) : error -> Reader -> Prop :=
| fail_line e b' :
    tp_ReadLine b = (Err e, b') -> readFailure b e b'
| fail_malformed s b1 method target proto :
    tp_ReadLine b = (Ok s, b1) ->
    parseRequestLine s = (method, target, proto, false) ->
    readFailure b (badStringError "malformed HTTP request" s) b1
| fail_method s b1 method target proto :
    tp_ReadLine b = (Ok s, b1) ->
    parseRequestLine s = (method, target, proto, true) ->
    validMethod method = false ->
    readFailure b (badStringError "invalid method" method) b1
| fail_version s b1 method target proto :
    tp_ReadLine b = (Ok s, b1) ->
    parseRequestLine s = (method, target, proto, true) ->
    validMethod method = true ->
    ParseHTTPVersion proto = None ->
    readFailure b (badStringError "malformed HTTP version" proto) b1
| fail_target s b1 method target proto major minor e :
    tp_ReadLine b = (Ok s, b1) ->
    parseRequestLine s = (method, target, proto, true) ->
    validMethod method = true ->
    ParseHTTPVersion proto = Some (major, minor) ->
    ParseRequestURI (parsedText method target) = Err e ->
    readFailure b (unexpected e) b1
| fail_header s b1 method target proto major minor u e b2 :
    tp_ReadLine b = (Ok s, b1) ->
    parseRequestLine s = (method, target, proto, true) ->
    validMethod method = true ->
    ParseHTTPVersion proto = Some (major, minor) ->
    ParseRequestURI (parsedText method target) = Ok u ->
    tp_ReadMIMEHeader b1 = (Err e, b2) ->
    readFailure b (unexpected e) b2
| fail_Host s b1 method target proto major minor u h b2 :
    tp_ReadLine b = (Ok s, b1) ->
    parseRequestLine s = (method, target, proto, true) ->
    validMethod method = true ->
    ParseHTTPVersion proto = Some (major, minor) ->
    ParseRequestURI (parsedText method target) = Ok u ->
    tp_ReadMIMEHeader b1 = (Ok h, b2) ->
    (1 < length (values h "Host"))%nat ->
    readFailure b (Errorf "too many Host headers") b2
| fail_transfer s b1 method target proto major minor u h b2 e b3 :
    tp_ReadLine b = (Ok s, b1) ->
    parseRequestLine s = (method, target, proto, true) ->
    validMethod method = true ->
    ParseHTTPVersion proto = Some (major, minor) ->
    ParseRequestURI (parsedText method target) = Ok u ->
    tp_ReadMIMEHeader b1 = (Ok h, b2) ->
    (length (values h "Host") <= 1)%nat ->
    readTransfer (requestAtTransfer method target proto major minor u h) b2
    = (Err e, b3) ->
    readFailure b (unexpected e) b3.

(** Unfold [readRequest] down to the calls of its collaborators, and
    replay a stage whose outcome is known. *)
Ltac unfold_readRequest :=
  unfold readRequest, bind, deferEOF, lift, ret, fail,
    parsedText, keptURL, justAuthority.

Ltac stage Hstage := rewrite Hstage; cbn beta iota zeta delta [negb].

(** * Properties *)

(** ** Cutting at the first space *)

Lemma slice_0_0 s : slice s 0 0 = "".
Proof. unfold slice. destruct s; reflexivity. Qed.

Lemma substring_whole s : String.substring 0 (String.length s) s = s.
Proof. induction s as [|c s IH]; simpl; [reflexivity | now rewrite IH]. Qed.

Lemma slice_from_0 s : slice_from s 0 = s.
Proof.
  unfold slice_from, slice. rewrite Nat.sub_0_r. apply substring_whole.
Qed.

Lemma slice_cons c s i : slice (String c s) 0 (S i) = String c (slice s 0 i).
Proof. unfold slice. simpl. now rewrite Nat.sub_0_r. Qed.

Lemma slice_from_cons c s i : slice_from (String c s) (S i) = slice_from s i.
Proof. reflexivity. Qed.

Lemma HasPrefix_space c s :
  HasPrefix (String c s) " " = Ascii.eqb c " ".
Proof.
  unfold HasPrefix. cbn [String.prefix].
  destruct (ascii_dec " " c) as [<-|Hne]; [now destruct s|].
  symmetry. apply Ascii.eqb_neq. congruence.
Qed.

Lemma Index_space_cons c s :
  Index (String c s) " " =
  if Ascii.eqb c " " then Some 0%nat else S <$> Index s " ".
Proof.
  cbn [Index]. rewrite HasPrefix_space. reflexivity.
Qed.

Lemma append_nil (t : string) : "" +:+ t = t.
Proof. reflexivity. Qed.

Lemma append_cons c (s t : string) : String c s +:+ t = String c (s +:+ t).
Proof. reflexivity. Qed.

(** [Cut] at a space, read off the first byte of the string. *)
Lemma Cut_space_nil : Cut "" " " = ("", "", false).
Proof. reflexivity. Qed.

Lemma Cut_space_cons c s :
  Cut (String c s) " " =
  if Ascii.eqb c " " then ("", s, true)
  else let '(before, after, found) := Cut s " " in
       (String c before, after, found).
Proof.
  unfold Cut. rewrite Index_space_cons.
  destruct (Ascii.eqb c " ").
  - rewrite slice_0_0. change (0 + String.length " ")%nat with 1%nat.
    rewrite slice_from_cons, slice_from_0. reflexivity.
  - destruct (Index s " ") as [i|]; simpl; [|reflexivity].
    rewrite slice_cons.
    change (S (i + 1)) with (S (i + String.length " ")).
    reflexivity.
Qed.

(** A string without a space is not cut. *)
Lemma Cut_no_space s :
  CountByte s " " = 0%nat -> Cut s " " = (s, "", false).
Proof.
  induction s as [|c s IH]; [reflexivity|].
  cbn [CountByte]. rewrite Cut_space_cons.
  destruct (Ascii.eqb c " "); [discriminate|].
  intros Hs. rewrite IH by exact Hs. reflexivity.
Qed.

(** A string is cut at the space that follows a space-free prefix. *)
Lemma Cut_at_space before after :
  CountByte before " " = 0%nat ->
  Cut (before +:+ " " +:+ after) " " = (before, after, true).
Proof.
  induction before as [|c s IH].
  - intros _. rewrite append_nil, append_cons, append_nil.
    now rewrite Cut_space_cons.
  - cbn [CountByte]. rewrite append_cons, Cut_space_cons.
    destruct (Ascii.eqb c " "); [discriminate|].
    intros Hs. rewrite IH by exact Hs. reflexivity.
Qed.

(** What a successful cut says about the string, and what a failed one
    says. *)
Lemma Cut_space_inv s before after found :
  Cut s " " = (before, after, found) ->
  if found
  then s = before +:+ " " +:+ after /\ CountByte before " " = 0%nat
  else before = s /\ after = "" /\ CountByte s " " = 0%nat.
Proof.
  revert before after found.
  induction s as [|c s IH]; intros before after found.
  - rewrite Cut_space_nil. intros [= <- <- <-]. auto.
  - rewrite Cut_space_cons. cbn [CountByte].
    destruct (Ascii.eqb c " ") eqn:Hc.
    + apply Ascii.eqb_eq in Hc as ->. intros [= <- <- <-]. auto.
    + destruct (Cut s " ") as [[b a] f] eqn:Hcut.
      intros [= <- <- <-]. specialize (IH _ _ _ eq_refl).
      destruct f.
      * destruct IH as [-> Hb]. cbn [CountByte]. rewrite Hc, append_cons. auto.
      * destruct IH as (-> & -> & Hs). auto.
Qed.

Lemma CountByte_app s t c :
  CountByte (s +:+ t) c = (CountByte s c + CountByte t c)%nat.
Proof.
  induction s as [|a s IH]; [reflexivity|].
  rewrite append_cons. cbn [CountByte]. rewrite IH. lia.
Qed.

(** ** The request line *)

Lemma parseRequestLine_wellformed method target proto :
  CountByte method " " = 0%nat ->
  CountByte target " " = 0%nat ->
  parseRequestLine (method +:+ " " +:+ target +:+ " " +:+ proto)
  = (method, target, proto, true).
Proof.
  intros Hm Ht. unfold parseRequestLine.
  rewrite (Cut_at_space method _ Hm), (Cut_at_space target _ Ht).
  reflexivity.
Qed.

Lemma parseRequestLine_missing_space line :
  (CountByte line " " < 2)%nat ->
  parseRequestLine line = ("", "", "", false).
Proof.
  intros Hc. unfold parseRequestLine.
  destruct (Cut line " ") as [[method rest] ok1] eqn:H1.
  apply Cut_space_inv in H1.
  destruct ok1.
  - destruct H1 as [-> Hm].
    rewrite !CountByte_app in Hc. cbn in Hc.
    rewrite Cut_no_space by lia. reflexivity.
  - destruct (Cut rest " ") as [[requestURI proto] ok2]. reflexivity.
Qed.

Lemma parseRequestLine_ok_inv line method target proto :
  parseRequestLine line = (method, target, proto, true) ->
  line = method +:+ " " +:+ target +:+ " " +:+ proto
  /\ CountByte method " " = 0%nat /\ CountByte target " " = 0%nat.
Proof.
  unfold parseRequestLine.
  destruct (Cut line " ") as [[m rest] ok1] eqn:H1.
  destruct (Cut rest " ") as [[t p] ok2] eqn:H2.
  apply Cut_space_inv in H1. apply Cut_space_inv in H2.
  destruct ok1, ok2; cbn; try discriminate.
  intros [= <- <- <-].
  destruct H1 as [-> Hm], H2 as [-> Ht]. auto.
Qed.

(** ** Running [readRequest] stage by stage *)

Section Stages.
Context `{Collaborators}.

Lemma readRequest_start_line_error b e b' :
  tp_ReadLine b = (Err e, b') -> readRequest b = (Err e, b').
Proof. intros Hline. unfold_readRequest. stage Hline. reflexivity. Qed.

Lemma readRequest_malformed b s b1 method target proto :
  tp_ReadLine b = (Ok s, b1) ->
  parseRequestLine s = (method, target, proto, false) ->
  readRequest b = (Err (badStringError "malformed HTTP request" s), b1).
Proof.
  intros Hline Hparse. unfold_readRequest.
  stage Hline. stage Hparse. reflexivity.
Qed.

Lemma readRequest_invalid_method b s b1 method target proto :
  tp_ReadLine b = (Ok s, b1) ->
  parseRequestLine s = (method, target, proto, true) ->
  validMethod method = false ->
  readRequest b = (Err (badStringError "invalid method" method), b1).
Proof.
  intros Hline Hparse Hmethod. unfold_readRequest.
  stage Hline. stage Hparse. stage Hmethod. reflexivity.
Qed.

Lemma readRequest_bad_version b s b1 method target proto :
  tp_ReadLine b = (Ok s, b1) ->
  parseRequestLine s = (method, target, proto, true) ->
  validMethod method = true ->
  ParseHTTPVersion proto = None ->
  readRequest b = (Err (badStringError "malformed HTTP version" proto), b1).
Proof.
  intros Hline Hparse Hmethod Hvers. unfold_readRequest.
  stage Hline. stage Hparse. stage Hmethod. stage Hvers. reflexivity.
Qed.

Lemma readRequest_bad_target b s b1 method target proto major minor e :
  tp_ReadLine b = (Ok s, b1) ->
  parseRequestLine s = (method, target, proto, true) ->
  validMethod method = true ->
  ParseHTTPVersion proto = Some (major, minor) ->
  ParseRequestURI (parsedText method target) = Err e ->
  readRequest b = (Err (unexpected e), b1).
Proof.
  intros Hline Hparse Hmethod Hvers Hurl. unfold_readRequest.
  unfold parsedText, justAuthority in Hurl.
  stage Hline. stage Hparse. stage Hmethod. stage Hvers. stage Hurl.
  destruct e; reflexivity.
Qed.

Lemma readRequest_header_error b s b1 method target proto major minor u e b2 :
  tp_ReadLine b = (Ok s, b1) ->
  parseRequestLine s = (method, target, proto, true) ->
  validMethod method = true ->
  ParseHTTPVersion proto = Some (major, minor) ->
  ParseRequestURI (parsedText method target) = Ok u ->
  tp_ReadMIMEHeader b1 = (Err e, b2) ->
  readRequest b = (Err (unexpected e), b2).
Proof.
  intros Hline Hparse Hmethod Hvers Hurl Hhdr. unfold_readRequest.
  unfold parsedText, justAuthority in Hurl.
  stage Hline. stage Hparse. stage Hmethod. stage Hvers. stage Hurl.
  stage Hhdr. destruct e; reflexivity.
Qed.

Lemma readRequest_too_many_Host b s b1 method target proto major minor u h b2 :
  tp_ReadLine b = (Ok s, b1) ->
  parseRequestLine s = (method, target, proto, true) ->
  validMethod method = true ->
  ParseHTTPVersion proto = Some (major, minor) ->
  ParseRequestURI (parsedText method target) = Ok u ->
  tp_ReadMIMEHeader b1 = (Ok h, b2) ->
  (1 < length (values h "Host"))%nat ->
  readRequest b = (Err (Errorf "too many Host headers"), b2).
Proof.
  intros Hline Hparse Hmethod Hvers Hurl Hhdr Hhost. unfold_readRequest.
  unfold parsedText, justAuthority in Hurl. apply Nat.ltb_lt in Hhost.
  stage Hline. stage Hparse. stage Hmethod. stage Hvers. stage Hurl.
  stage Hhdr. stage Hhost. reflexivity.
Qed.

(** Once the header block is in, the outcome is that of [readTransfer]. *)
Lemma readRequest_to_transfer b s b1 method target proto major minor u h b2 :
  tp_ReadLine b = (Ok s, b1) ->
  parseRequestLine s = (method, target, proto, true) ->
  validMethod method = true ->
  ParseHTTPVersion proto = Some (major, minor) ->
  ParseRequestURI (parsedText method target) = Ok u ->
  tp_ReadMIMEHeader b1 = (Ok h, b2) ->
  (length (values h "Host") <= 1)%nat ->
  readRequest b =
  match readTransfer
          (requestAtTransfer method target proto major minor u h) b2 with
  | (Ok q, b3) => (Ok (forceH2Upgrade q), b3)
  | (Err e, b3) => (Err (unexpected e), b3)
  end.
Proof.
  intros Hline Hparse Hmethod Hvers Hurl Hhdr Hhost. unfold_readRequest.
  unfold parsedText, justAuthority in Hurl. apply Nat.ltb_ge in Hhost.
  stage Hline. stage Hparse. stage Hmethod. stage Hvers. stage Hurl.
  stage Hhdr. stage Hhost.
  unfold requestAtTransfer, keptURL, justAuthority, forceH2Upgrade.
  destruct (readTransfer _ b2) as [[q|e] b3].
  - destruct (isH2UpgradeRequest q); reflexivity.
  - destruct e; reflexivity.
Qed.

(** Every successful read went through all the stages. *)
Lemma readRequest_Ok_inv b req b' :
  readRequest b = (Ok req, b') ->
  exists s b1 method target proto major minor u h b2 q,
    tp_ReadLine b = (Ok s, b1)
    /\ parseRequestLine s = (method, target, proto, true)
    /\ validMethod method = true
    /\ ParseHTTPVersion proto = Some (major, minor)
    /\ ParseRequestURI (parsedText method target) = Ok u
    /\ tp_ReadMIMEHeader b1 = (Ok h, b2)
    /\ (length (values h "Host") <= 1)%nat
    /\ readTransfer
         (requestAtTransfer method target proto major minor u h) b2
       = (Ok q, b')
    /\ req = forceH2Upgrade q.
Proof.
  intros Hrun.
  destruct (tp_ReadLine b) as [[s|e] b1] eqn:Hline;
    [|rewrite (readRequest_start_line_error _ _ _ Hline) in Hrun;
      discriminate].
  destruct (parseRequestLine s) as [[[method target] proto] ok] eqn:Hparse.
  destruct ok;
    [|rewrite (readRequest_malformed _ _ _ _ _ _ Hline Hparse) in Hrun;
      discriminate].
  destruct (validMethod method) eqn:Hmethod;
    [|rewrite (readRequest_invalid_method _ _ _ _ _ _ Hline Hparse Hmethod)
        in Hrun; discriminate].
  destruct (ParseHTTPVersion proto) as [[major minor]|] eqn:Hvers;
    [|rewrite (readRequest_bad_version _ _ _ _ _ _ Hline Hparse Hmethod Hvers)
        in Hrun; discriminate].
  destruct (ParseRequestURI (parsedText method target)) as [u|e] eqn:Hurl;
    [|rewrite (readRequest_bad_target _ _ _ _ _ _ _ _ _
                 Hline Hparse Hmethod Hvers Hurl) in Hrun; discriminate].
  destruct (tp_ReadMIMEHeader b1) as [[h|e] b2] eqn:Hhdr;
    [|rewrite (readRequest_header_error _ _ _ _ _ _ _ _ _ _ _
                 Hline Hparse Hmethod Hvers Hurl Hhdr) in Hrun;
      discriminate].
  destruct (Nat.le_gt_cases (length (values h "Host")) 1) as [Hhost|Hhost];
    [|rewrite (readRequest_too_many_Host _ _ _ _ _ _ _ _ _ _ _
                 Hline Hparse Hmethod Hvers Hurl Hhdr Hhost) in Hrun;
      discriminate].
  rewrite (readRequest_to_transfer _ _ _ _ _ _ _ _ _ _ _
             Hline Hparse Hmethod Hvers Hurl Hhdr Hhost) in Hrun.
  destruct (readTransfer _ b2) as [[q|e] b3] eqn:Htransfer; [|discriminate].
  injection Hrun as <- <-.
  exists s, b1, method, target, proto, major, minor, u, h, b2, q.
  repeat split; assumption.
Qed.


End Stages.

(** ** Protocol sets *)

Lemma Protocols_String_members p :
  Protocols_String p = "{" +:+ Join (enabledMembers p) "," +:+ "}".
Proof.
  unfold Protocols_String, enabledMembers, memberTable.
  cbn [filter list_filter map fst snd].
  repeat case_decide;
    repeat match goal with Hb : _ = true |- _ => rewrite Hb; clear Hb end;
    repeat match goal with
           | Hb : ?b <> true |- _ => apply not_true_is_false in Hb; rewrite Hb; clear Hb
           end;
    reflexivity.
Qed.

Lemma small_cases z :
  0 <= z < 8 ->
  z = 0 \/ z = 1 \/ z = 2 \/ z = 3 \/ z = 4 \/ z = 5 \/ z = 6 \/ z = 7.
Proof. lia. Qed.

Lemma setBit_small p bit ok :
  0 <= bits p < 8 -> bit = 1 \/ bit = 2 \/ bit = 4 ->
  0 <= bits (setBit p bit ok) < 8.
Proof.
  intros Hp Hbit. destruct p as [z]. cbn [bits] in *.
  apply small_cases in Hp.
  destruct ok; unfold setBit; cbn [bits];
    intuition subst; vm_compute; intuition discriminate.
Qed.

(** Only the three low bits are ever set. *)
Lemma reachable_bits p : reachable p -> 0 <= bits p < 8.
Proof.
  induction 1 as [|p ok _ IH|p ok _ IH|p ok _ IH].
  - cbn. lia.
  - apply setBit_small; [exact IH | now left].
  - apply setBit_small; [exact IH | right; now left].
  - apply setBit_small; [exact IH | right; now right].
Qed.

(** Conversely, each of the eight sets over the three members can be
    built. *)
Lemma small_bits_reachable p : 0 <= bits p < 8 -> reachable p.
Proof.
  destruct p as [z]. cbn [bits]. intros Hz. apply small_cases in Hz.
  pose (on1 := fun q => SetHTTP1 q true).
  pose (on2 := fun q => SetHTTP2 q true).
  pose (on4 := fun q => SetUnencryptedHTTP2 q true).
  destruct Hz as [->|[->|[->|[->|[->|[->|[->| ->]]]]]]].
  - apply reach_zero.
  - change (reachable (on1 zeroProtocols)). repeat constructor.
  - change (reachable (on2 zeroProtocols)). repeat constructor.
  - change (reachable (on2 (on1 zeroProtocols))). repeat constructor.
  - change (reachable (on4 zeroProtocols)). repeat constructor.
  - change (reachable (on4 (on1 zeroProtocols))). repeat constructor.
  - change (reachable (on4 (on2 zeroProtocols))). repeat constructor.
  - change (reachable (on4 (on2 (on1 zeroProtocols)))). repeat constructor.
Qed.

(** C6.  For every protocol set the rendering is an opening brace, the
    names of exactly the enabled members in the order HTTP1, HTTP2,
    UnencryptedHTTP2 joined by commas, and a closing brace; and starting
    from the zero value, calling the setters with [true] for exactly the
    names the rendering lists gives back the original value. *)
Theorem Protocols_String_roundtrip p :
  reachable p ->
  Protocols_String p = "{" +:+ Join (enabledMembers p) "," +:+ "}"
  /\ enabledMembers p = listed (Protocols_String p)
  /\ reenable (listed (Protocols_String p)) = p.
Proof.
  intros Hp. split; [apply Protocols_String_members|].
  apply reachable_bits in Hp. destruct p as [z]. cbn [bits] in Hp.
  apply small_cases in Hp.
  intuition subst; vm_compute; reflexivity.
Qed.

Lemma Protocols_String_roundtrip_witness :
  let p := SetUnencryptedHTTP2 (SetHTTP1 zeroProtocols true) true in
  reachable p
  /\ Protocols_String p = "{HTTP1,UnencryptedHTTP2}"
  /\ reenable ["HTTP1"; "UnencryptedHTTP2"] = p.
Proof.
  assert (Hp : reachable (SetUnencryptedHTTP2 (SetHTTP1 zeroProtocols true) true))
    by (repeat constructor).
  split; [exact Hp|].
  destruct (Protocols_String_roundtrip _ Hp) as (Hs & Hl & Hr).
  split; [reflexivity | exact Hr].
Defined.

(** ** Replayable requests *)

Lemma body_gate req :
  ReadCloser_eqb (Body req) nilBody || ReadCloser_eqb (Body req) NoBody
  || bool_decide (is_Some (GetBody req)) = true
  <-> noBody req \/ bodyRecreatable req.
Proof.
  unfold noBody, bodyRecreatable.
  rewrite !orb_true_iff, bool_decide_eq_true.
  destruct (Body req); cbn; intuition congruence.
Qed.

Lemma method_gate m :
  String.eqb m "GET" || String.eqb m "HEAD"
  || String.eqb m "OPTIONS" || String.eqb m "TRACE" = true
  <-> safeMethod m.
Proof.
  unfold safeMethod. rewrite !orb_true_iff, !String.eqb_eq. tauto.
Qed.

Lemma key_gate req :
  (let exists_ := bool_decide (is_Some (Header req !! "Idempotency-Key")) in
   if negb exists_
   then bool_decide (is_Some (Header req !! "X-Idempotency-Key"))
   else exists_) = true
  <-> idempotencyKeyed req.
Proof.
  unfold idempotencyKeyed. cbn zeta.
  destruct (bool_decide_reflect (is_Some (Header req !! "Idempotency-Key")));
    cbn [negb]; rewrite ?bool_decide_eq_true; intuition discriminate.
Qed.

Lemma valueOrDefault_spec value def :
  valueOrDefault value def = if String.eqb value "" then def else value.
Proof. unfold valueOrDefault. now destruct (String.eqb value ""). Qed.

(** The rule as the code has it, over the method the code looks at. *)
Lemma isReplayableRequest_spec req :
  isReplayableRequest req = true
  <-> (noBody req \/ bodyRecreatable req)
      /\ (safeMethod (valueOrDefault (Method req) "GET")
          \/ idempotencyKeyed req).
Proof.
  unfold isReplayableRequest. rewrite <- body_gate, <- method_gate, <- key_gate.
  cbn zeta.
  destruct (_ || _ || bool_decide _); [|intuition discriminate].
  destruct (_ || _ || _ || _); [tauto|].
  match goal with |- context [if ?c then true else false] =>
    destruct c end; intuition discriminate.
Qed.

(** C1, as amended.  A request is replayable exactly when it has no body
    (nil or [http.NoBody]) or its body can be made anew ([GetBody] is not
    nil), and in addition its method is GET, HEAD, OPTIONS or TRACE, an
    empty method counting as GET, or it has an [Idempotency-Key] or
    [X-Idempotency-Key] header entry. *)
Theorem isReplayableRequest_iff req :
  isReplayableRequest req = true
  <-> (noBody req \/ bodyRecreatable req)
      /\ ((Method req = "" \/ safeMethod (Method req))
          \/ idempotencyKeyed req).
Proof.
  rewrite isReplayableRequest_spec, valueOrDefault_spec.
  destruct (String.eqb_spec (Method req) "") as [->|Hne].
  - unfold safeMethod. tauto.
  - tauto.
Qed.

(** C1, as stated, fails for a request with an empty method, no body and
    no header: it is replayable, yet its method is none of the four. *)
Lemma isReplayableRequest_iff_counterexample :
  let req := outgoing "" ∅ nilBody None in
  ~ (isReplayableRequest req = true
     <-> (noBody req \/ bodyRecreatable req)
         /\ (safeMethod (Method req) \/ idempotencyKeyed req)).
Proof.
  cbv zeta. intros [Hiff _].
  destruct (Hiff eq_refl) as [_ [Hm | [Hk | Hk]]].
  - unfold safeMethod in Hm. cbn in Hm. intuition discriminate.
  - cbn in Hk. rewrite lookup_empty in Hk. now destruct Hk.
  - cbn in Hk. rewrite lookup_empty in Hk. now destruct Hk.
Qed.

(** The three examples of the design document. *)
Example GET_without_body_replayable :
  isReplayableRequest (outgoing "GET" ∅ nilBody None) = true.
Proof. reflexivity. Qed.

Example POST_with_body_not_replayable :
  isReplayableRequest (outgoing "POST" ∅ (bodyReader 0) None) = false.
Proof. reflexivity. Qed.

Example POST_keyed_recreatable_replayable :
  isReplayableRequest
    (outgoing "POST" {[ "Idempotency-Key" := ["k1"] ]} (bodyReader 0)
       (Some (fun _ => Ok (bodyReader 0)))) = true.
Proof. vm_compute. reflexivity. Qed.

(** C2, as amended.  For a request with an [Idempotency-Key] or
    [X-Idempotency-Key] header entry, the request is replayable exactly
    when it has no body or its body can be made anew: the header does not
    replace that condition. *)
Theorem isReplayableRequest_keyed req :
  idempotencyKeyed req ->
  (isReplayableRequest req = true <-> noBody req \/ bodyRecreatable req).
Proof. intros Hk. rewrite isReplayableRequest_spec. tauto. Qed.

Lemma isReplayableRequest_keyed_witness :
  let req := outgoing "POST" {[ "X-Idempotency-Key" := ["k1"] ]} NoBody None in
  idempotencyKeyed req /\ isReplayableRequest req = true.
Proof.
  cbv zeta.
  assert (Hk : idempotencyKeyed
                 (outgoing "POST" {[ "X-Idempotency-Key" := ["k1"] ]} NoBody None)).
  { right. cbn. rewrite lookup_singleton_eq. eauto. }
  split; [exact Hk|].
  apply (isReplayableRequest_keyed _ Hk). left. right. reflexivity.
Defined.

(** C2, as stated, fails: a POST with an [Idempotency-Key], a body and no
    [GetBody] is not replayable. *)
Lemma isReplayableRequest_keyed_counterexample :
  let req := outgoing "POST" {[ "Idempotency-Key" := ["k1"] ]} (bodyReader 0) None in
  idempotencyKeyed req /\ Body req <> nilBody /\ GetBody req = None
  /\ isReplayableRequest req = false.
Proof.
  cbv zeta. split; [|split; [|split]].
  - left. cbn. rewrite lookup_singleton_eq. eauto.
  - discriminate.
  - reflexivity.
  - vm_compute. reflexivity.
Qed.

(** C10.  A request with an empty method is judged as if its method were
    GET; so with no body it is replayable, whatever its header. *)
Theorem isReplayableRequest_empty_method req :
  Method req = "" ->
  isReplayableRequest req = isReplayableRequest (set_Method req "GET")
  /\ (noBody req -> isReplayableRequest req = true).
Proof.
  intros Hm. split.
  - unfold isReplayableRequest. cbn [Method Body GetBody Header set_Method].
    rewrite Hm. reflexivity.
  - intros Hb. apply isReplayableRequest_spec. rewrite Hm.
    split; [now left | left; now left].
Qed.

Lemma isReplayableRequest_empty_method_witness :
  let req := outgoing "" ∅ NoBody None in
  Method req = "" /\ noBody req /\ isReplayableRequest req = true.
Proof.
  cbv zeta. split; [reflexivity|]. split; [right; reflexivity|].
  apply (isReplayableRequest_empty_method (outgoing "" ∅ NoBody None) eq_refl).
  right. reflexivity.
Defined.

(** ** Pragma and Cache-Control *)

Lemma pragma_test (h : http_Header) hp :
  h !! "Pragma" = Some hp ->
  Nat.ltb 0 (length hp) && String.eqb (nth 0 hp "") "no-cache" = true
  <-> pragmaNoCacheFirst h.
Proof.
  intros Hp. unfold pragmaNoCacheFirst. rewrite Hp.
  destruct hp as [|v rest]; cbn.
  - split; [discriminate | intros [? [=]]].
  - rewrite String.eqb_eq. split.
    + intros ->. eauto.
    + intros [? [= -> _]]. reflexivity.
Qed.

Lemma fixPragmaCacheControl_adds (h : http_Header) :
  pragmaNoCacheFirst h -> h !! "Cache-Control" = None ->
  fixPragmaCacheControl h = <["Cache-Control" := ["no-cache"]]> h.
Proof.
  intros Hp Hcc. unfold fixPragmaCacheControl.
  destruct (h !! "Pragma") as [hp|] eqn:Hhp; [|destruct Hp; congruence].
  apply (pragma_test h hp Hhp) in Hp. rewrite Hp, Hcc. reflexivity.
Qed.

Lemma fixPragmaCacheControl_keeps (h : http_Header) :
  ~ (pragmaNoCacheFirst h /\ h !! "Cache-Control" = None) ->
  fixPragmaCacheControl h = h.
Proof.
  intros Hnot. unfold fixPragmaCacheControl.
  destruct (h !! "Pragma") as [hp|] eqn:Hhp; [|reflexivity].
  destruct (Nat.ltb 0 (length hp) && String.eqb (nth 0 hp "") "no-cache")
    eqn:Htest; [|reflexivity].
  apply (pragma_test h hp Hhp) in Htest.
  destruct (h !! "Cache-Control") eqn:Hcc; [reflexivity|].
  exfalso. apply Hnot. split; [exact Htest | reflexivity].
Qed.

Lemma pragma_decision (h : http_Header) :
  (pragmaNoCacheFirst h /\ h !! "Cache-Control" = None)
  \/ ~ (pragmaNoCacheFirst h /\ h !! "Cache-Control" = None).
Proof.
  unfold pragmaNoCacheFirst.
  destruct (h !! "Cache-Control"); [right; intros [_ [=]]|].
  destruct (h !! "Pragma") as [[|v rest]|].
  - right. intros [[? [=]] _].
  - destruct (String.eqb_spec v "no-cache") as [->|Hne].
    + left. eauto.
    + right. intros [[? [= -> _]] _]. congruence.
  - right. intros [[? [=]] _].
Qed.

(** C9, as amended.  A Cache-Control entry with the single value
    "no-cache" is added exactly when the first value of the Pragma entry is
    "no-cache" and there is no Cache-Control entry; in every other case the
    map is unchanged; a Cache-Control entry already there is never
    overwritten; no other field is ever modified. *)
Theorem fixPragmaCacheControl_effect (h : http_Header) :
  (pragmaNoCacheFirst h /\ h !! "Cache-Control" = None ->
   fixPragmaCacheControl h = <["Cache-Control" := ["no-cache"]]> h)
  /\ (~ (pragmaNoCacheFirst h /\ h !! "Cache-Control" = None) ->
      fixPragmaCacheControl h = h)
  /\ (fixPragmaCacheControl h <> h <->
      pragmaNoCacheFirst h /\ h !! "Cache-Control" = None)
  /\ (forall v, h !! "Cache-Control" = Some v ->
                fixPragmaCacheControl h !! "Cache-Control" = Some v)
  /\ (forall key, key <> "Cache-Control" ->
                  fixPragmaCacheControl h !! key = h !! key).
Proof.
  split; [intros [Hp Hcc]; now apply fixPragmaCacheControl_adds|].
  split; [apply fixPragmaCacheControl_keeps|].
  split; [|split].
  - split.
    + intros Hchanged.
      destruct (pragma_decision h) as [Hyes|Hno]; [exact Hyes|].
      destruct Hchanged. now apply fixPragmaCacheControl_keeps.
    + intros [Hp Hcc] Hsame.
      rewrite (fixPragmaCacheControl_adds h Hp Hcc) in Hsame.
      apply (f_equal (fun m : http_Header => m !! "Cache-Control")) in Hsame.
      rewrite lookup_insert_eq, Hcc in Hsame. discriminate.
  - intros v Hcc. rewrite fixPragmaCacheControl_keeps; [exact Hcc|].
    intros [_ Hnone]. congruence.
  - intros key Hkey.
    destruct (pragma_decision h) as [[Hp Hcc]|Hno].
    + rewrite (fixPragmaCacheControl_adds h Hp Hcc).
      now apply lookup_insert_ne.
    + now rewrite fixPragmaCacheControl_keeps.
Qed.

Lemma fixPragmaCacheControl_effect_witness :
  let h : http_Header := {[ "Pragma" := ["no-cache"] ]} in
  fixPragmaCacheControl h
  = <["Cache-Control" := ["no-cache"]]> h
  /\ fixPragmaCacheControl h !! "Pragma" = Some ["no-cache"].
Proof.
  cbv zeta.
  destruct (fixPragmaCacheControl_effect {[ "Pragma" := ["no-cache"] ]})
    as (Hadd & _ & _ & _ & Hframe).
  split.
  - apply Hadd. split.
    + exists []. apply lookup_singleton_eq.
    + now apply lookup_singleton_ne.
  - rewrite Hframe by discriminate. apply lookup_singleton_eq.
Defined.

(** C9, as stated, fails: with the Pragma values "x" and "no-cache" a
    Pragma field with value no-cache is present and there is no
    Cache-Control entry, yet nothing is added. *)
Lemma fixPragmaCacheControl_counterexample :
  let h : http_Header := {[ "Pragma" := ["x"; "no-cache"] ]} in
  "no-cache" ∈ values h "Pragma"
  /\ h !! "Cache-Control" = None
  /\ fixPragmaCacheControl h = h
  /\ fixPragmaCacheControl h !! "Cache-Control" = None.
Proof.
  cbv zeta. split; [|split; [|split]].
  - unfold values. rewrite lookup_singleton_eq. cbn. set_solver.
  - now apply lookup_singleton_ne.
  - unfold fixPragmaCacheControl. rewrite lookup_singleton_eq. reflexivity.
  - unfold fixPragmaCacheControl. rewrite lookup_singleton_eq. cbn.
    now apply lookup_singleton_ne.
Qed.

(** ** Reading a request *)

Lemma forceH2Upgrade_fields req :
  Method (forceH2Upgrade req) = Method req
  /\ RequestURI (forceH2Upgrade req) = RequestURI req
  /\ URL (forceH2Upgrade req) = URL req
  /\ Header (forceH2Upgrade req) = Header req
  /\ Proto (forceH2Upgrade req) = Proto req.
Proof.
  unfold forceH2Upgrade. destruct (isH2UpgradeRequest req); cbn; auto.
Qed.

Lemma isH2UpgradeRequest_forceH2Upgrade req :
  isH2UpgradeRequest (forceH2Upgrade req) = isH2UpgradeRequest req.
Proof.
  unfold forceH2Upgrade. destruct (isH2UpgradeRequest req) eqn:Hq; [|exact Hq].
  exact Hq.
Qed.

Lemma isH2UpgradeRequest_shape req :
  isH2UpgradeRequest req = true
  <-> Method req = "PRI" /\ Header req = ∅
      /\ url.Path (URL req) = "*" /\ Proto req = "HTTP/2.0".
Proof.
  unfold isH2UpgradeRequest.
  rewrite !andb_true_iff, !String.eqb_eq, Nat.eqb_eq, map_size_empty_iff.
  tauto.
Qed.

(** C3.  A line "<method> <target> <proto>" whose method and target hold
    no space is split into exactly that method, target and protocol text,
    and with a valid method token [readRequest] goes on to return the
    request once the later stages (version, URL, header block, Host count,
    body framing) succeed; a line with fewer than two spaces is not split
    and [readRequest] fails with the malformed-request error; a line whose
    method is not a valid token fails with the invalid-method error. *)
Theorem readRequest_request_line `{Collaborators} b line b1 :
  tp_ReadLine b = (Ok line, b1) ->
  (forall method target proto,
      line = method +:+ " " +:+ target +:+ " " +:+ proto ->
      CountByte method " " = 0%nat -> CountByte target " " = 0%nat ->
      parseRequestLine line = (method, target, proto, true)
      /\ (validMethod method = true ->
          forall major minor u h b2 q b3,
            ParseHTTPVersion proto = Some (major, minor) ->
            ParseRequestURI (parsedText method target) = Ok u ->
            tp_ReadMIMEHeader b1 = (Ok h, b2) ->
            (length (values h "Host") <= 1)%nat ->
            readTransfer
              (requestAtTransfer method target proto major minor u h) b2
            = (Ok q, b3) ->
            readRequest b = (Ok (forceH2Upgrade q), b3)))
  /\ ((CountByte line " " < 2)%nat ->
      parseRequestLine line = ("", "", "", false)
      /\ readRequest b
         = (Err (badStringError "malformed HTTP request" line), b1))
  /\ (forall method target proto,
         parseRequestLine line = (method, target, proto, true) ->
         validMethod method = false ->
         readRequest b = (Err (badStringError "invalid method" method), b1)).
Proof.
  intros Hline. split; [|split].
  - intros method target proto -> Hm Ht.
    pose proof (parseRequestLine_wellformed method target proto Hm Ht) as Hparse.
    split; [exact Hparse|].
    intros Hmethod major minor u h b2 q b3 Hvers Hurl Hhdr Hhost Htransfer.
    rewrite (readRequest_to_transfer _ _ _ _ _ _ _ _ _ _ _
               Hline Hparse Hmethod Hvers Hurl Hhdr Hhost), Htransfer.
    reflexivity.
  - intros Hcount.
    pose proof (parseRequestLine_missing_space line Hcount) as Hparse.
    split; [exact Hparse|].
    exact (readRequest_malformed _ _ _ _ _ _ Hline Hparse).
  - intros method target proto Hparse Hmethod.
    exact (readRequest_invalid_method _ _ _ _ _ _ Hline Hparse Hmethod).
Qed.

Lemma readRequest_request_line_witness :
  let b := [Scripted.aLine "GET /index.html HTTP/1.1";
            Scripted.aHeaderBlock {[ "Host" := ["example.com"] ]}] in
  Scripted.ReadLine b = (Ok "GET /index.html HTTP/1.1", tail b)
  /\ parseRequestLine "GET /index.html HTTP/1.1"
     = ("GET", "/index.html", "HTTP/1.1", true)
  /\ exists req, @readRequest Scripted.collaborators b = (Ok req, [])
                 /\ Method req = "GET" /\ RequestURI req = "/index.html"
                 /\ Proto req = "HTTP/1.1".
Proof.
  cbv zeta. split; [reflexivity|].
  destruct (@readRequest_request_line Scripted.collaborators
              [Scripted.aLine "GET /index.html HTTP/1.1";
               Scripted.aHeaderBlock {[ "Host" := ["example.com"] ]}]
              "GET /index.html HTTP/1.1" _ eq_refl) as (Hshape & _ & _).
  destruct (Hshape "GET" "/index.html" "HTTP/1.1" eq_refl eq_refl eq_refl)
    as [Hparse Haccept].
  split; [exact Hparse|].
  eexists. split.
  - apply (Haccept eq_refl 1 1
             {| url.Scheme := ""; url.Host := ""; url.Path := "/index.html";
                url.RawQuery := "" |}
             {[ "Host" := ["example.com"] ]} []).
    + reflexivity.
    + reflexivity.
    + reflexivity.
    + vm_compute. lia.
    + vm_compute. reflexivity.
  - vm_compute. auto.
Defined.





(** C5.  A request that [readRequest] returns has the shape of the HTTP/2
    preface (method "PRI", no header field, URL path "*", protocol text
    "HTTP/2.0") exactly when [isH2UpgradeRequest] holds of it; then its
    ContentLength is -1 and its Close is true; otherwise it is returned
    just as [readTransfer] left it. *)
Theorem readRequest_H2_preface `{Collaborators} b req b' :
  readRequest b = (Ok req, b') ->
  (isH2UpgradeRequest req = true
   <-> Method req = "PRI" /\ Header req = ∅
       /\ url.Path (URL req) = "*" /\ Proto req = "HTTP/2.0")
  /\ (isH2UpgradeRequest req = true ->
      ContentLength req = -1 /\ Close req = true)
  /\ (isH2UpgradeRequest req = false ->
      exists q b2, readTransfer q b2 = (Ok req, b')).
Proof.
  intros Hrun. split; [apply isH2UpgradeRequest_shape|].
  apply readRequest_Ok_inv in Hrun
    as (s & b1 & method & target & proto & major & minor & u & h & b2 & q
        & _ & _ & _ & _ & _ & _ & _ & Htransfer & ->).
  rewrite isH2UpgradeRequest_forceH2Upgrade. unfold forceH2Upgrade.
  split; intros Hq; rewrite Hq.
  - split; reflexivity.
  - eauto.
Qed.

Lemma readRequest_H2_preface_witness :
  exists req,
    @readRequest Scripted.collaborators
      [Scripted.aLine "PRI * HTTP/2.0"; Scripted.aHeaderBlock ∅]
    = (Ok req, [])
    /\ isH2UpgradeRequest req = true
    /\ ContentLength req = -1 /\ Close req = true.
Proof.
  destruct (@readRequest Scripted.collaborators
              [Scripted.aLine "PRI * HTTP/2.0"; Scripted.aHeaderBlock ∅])
    as [[req|e] b'] eqn:Hrun; [|vm_compute in Hrun; discriminate].
  pose proof Hrun as Hreq. vm_compute in Hreq. injection Hreq as <- <-.
  eexists. split; [reflexivity|].
  split; [vm_compute; reflexivity|].
  destruct (@readRequest_H2_preface Scripted.collaborators _ _ _ Hrun)
    as (_ & Hforced & _).
  apply Hforced. vm_compute. reflexivity.
Defined.




(** The stream that ends before any byte is the clean close: plain
    [io.EOF]. *)
Example clean_close_is_plain_EOF :
  @readRequest Wire.collaborators "" = (Err io_EOF, "").
Proof. reflexivity. Qed.

(** ** Requests that need HTTP/1.1 *)

(** C8, as amended.  [requestRequiresHTTP1] holds exactly when the first
    value of the Connection field has the token "upgrade" and the first
    value of the Upgrade field is "websocket" up to letter case; an absent
    field counts as the empty text, and any other upgrade token gives
    false. *)
Theorem requestRequiresHTTP1_iff `{Collaborators} req :
  requestRequiresHTTP1 req = true
  <-> hasToken (Header_Get (Header req) "Connection") "upgrade" = true
      /\ EqualFold (Header_Get (Header req) "Upgrade") "websocket" = true.
Proof. unfold requestRequiresHTTP1. apply andb_true_iff. Qed.

Example websocket_upgrade_requires_HTTP1 :
  @requestRequiresHTTP1 Scripted.collaborators
    (outgoing "GET"
       {[ "Connection" := ["keep-alive, Upgrade"]; "Upgrade" := ["WebSocket"] ]}
       nilBody None) = true.
Proof. vm_compute. reflexivity. Qed.

(** C8, as stated, fails: a request with "Connection: upgrade" and the
    upgrade token "h2c" does not require HTTP/1.1. *)
Lemma requestRequiresHTTP1_counterexample :
  let req := outgoing "GET"
               {[ "Connection" := ["upgrade"]; "Upgrade" := ["h2c"] ]}
               nilBody None in
  Scripted.hasToken (Header_Get (Header req) "Connection") "upgrade" = true
  /\ Header_Get (Header req) "Upgrade" = "h2c"
  /\ Scripted.ValidHeaderFieldName "h2c" = true
  /\ @requestRequiresHTTP1 Scripted.collaborators req = false.
Proof. vm_compute. auto. Qed.

(** * Further properties *)

(** ** Protocol sets, bit by bit *)

Lemma land_bit_testbit b k :
  0 <= k -> negb (Z.land b (Z.shiftl 1 k) =? 0) = Z.testbit b k.
Proof.
  intros Hk. rewrite Z.shiftl_1_l.
  destruct (Z.testbit b k) eqn:Hb.
  - assert (Hland : Z.land b (2 ^ k) = 2 ^ k).
    { apply Z.bits_inj'. intros n Hn.
      rewrite Z.land_spec, Z.pow2_bits_eqb by exact Hk.
      destruct (Z.eqb_spec k n) as [<-|_];
        [rewrite Hb; reflexivity | apply andb_false_r]. }
    rewrite Hland.
    destruct (Z.eqb_spec (2 ^ k) 0) as [H0|_]; [|reflexivity].
    pose proof (Z.pow_pos_nonneg 2 k ltac:(lia) Hk). lia.
  - assert (Hland : Z.land b (2 ^ k) = 0).
    { apply Z.bits_inj'. intros n Hn.
      rewrite Z.land_spec, Z.pow2_bits_eqb, Z.bits_0 by exact Hk.
      destruct (Z.eqb_spec k n) as [<-|_];
        [rewrite Hb; reflexivity | apply andb_false_r]. }
    rewrite Hland. reflexivity.
Qed.

Lemma testbit_uint8 x n :
  0 <= n -> Z.testbit (uint8 x) n = (n <? 8) && Z.testbit x n.
Proof.
  intros Hn. unfold uint8. change 256 with (2 ^ 8).
  destruct (Z.ltb_spec n 8).
  - now rewrite Z.mod_pow2_bits_low.
  - now rewrite Z.mod_pow2_bits_high.
Qed.

Lemma testbit_shiftl_1 j n :
  0 <= j -> 0 <= n -> Z.testbit (Z.shiftl 1 j) n = (j =? n).
Proof. intros Hj Hn. rewrite Z.shiftl_1_l. now apply Z.pow2_bits_eqb. Qed.

(** The bits of a set after [setBit] with the bit of position [j]. *)
Lemma testbit_setBit p j ok n :
  0 <= j -> 0 <= n ->
  Z.testbit (bits (setBit p (Z.shiftl 1 j) ok)) n
  = (n <? 8)
    && (if ok then Z.testbit (bits p) n || (j =? n)
        else Z.testbit (bits p) n && negb (j =? n)).
Proof.
  intros Hj Hn. unfold setBit.
  destruct ok; cbn [bits]; rewrite testbit_uint8 by exact Hn; f_equal.
  - now rewrite Z.lor_spec, testbit_shiftl_1.
  - now rewrite Z.ldiff_spec, testbit_shiftl_1.
Qed.

Lemma member_testbit p :
  HTTP1 p = Z.testbit (bits p) 0
  /\ HTTP2 p = Z.testbit (bits p) 1
  /\ UnencryptedHTTP2 p = Z.testbit (bits p) 2.
Proof.
  unfold HTTP1, HTTP2, UnencryptedHTTP2,
    protoHTTP1, protoHTTP2, protoUnencryptedHTTP2.
  rewrite !land_bit_testbit by lia. auto.
Qed.

Ltac member_bits :=
  repeat match goal with
         | |- context [HTTP1 ?p] =>
             rewrite (proj1 (member_testbit p))
         | |- context [HTTP2 ?p] =>
             rewrite (proj1 (proj2 (member_testbit p)))
         | |- context [UnencryptedHTTP2 ?p] =>
             rewrite (proj2 (proj2 (member_testbit p)))
         end;
  unfold SetHTTP1, SetHTTP2, SetUnencryptedHTTP2,
    protoHTTP1, protoHTTP2, protoUnencryptedHTTP2;
  rewrite ?testbit_setBit by lia.

(** X1.  Each setter makes its own member equal to the flag it is given
    and leaves the two other members as they were, whatever the set held
    before. *)
Theorem setters_set_one_member p ok :
  (HTTP1 (SetHTTP1 p ok) = ok
   /\ HTTP2 (SetHTTP1 p ok) = HTTP2 p
   /\ UnencryptedHTTP2 (SetHTTP1 p ok) = UnencryptedHTTP2 p)
  /\ (HTTP1 (SetHTTP2 p ok) = HTTP1 p
      /\ HTTP2 (SetHTTP2 p ok) = ok
      /\ UnencryptedHTTP2 (SetHTTP2 p ok) = UnencryptedHTTP2 p)
  /\ (HTTP1 (SetUnencryptedHTTP2 p ok) = HTTP1 p
      /\ HTTP2 (SetUnencryptedHTTP2 p ok) = HTTP2 p
      /\ UnencryptedHTTP2 (SetUnencryptedHTTP2 p ok) = ok).
Proof.
  repeat split; member_bits;
    repeat match goal with
           | |- context [Z.testbit (bits p) ?k] =>
               generalize (Z.testbit (bits p) k); intro
           end;
    repeat match goal with x : bool |- _ => destruct x end; reflexivity.
Qed.

Lemma Protocols_eq p q :
  (forall n, 0 <= n -> Z.testbit (bits p) n = Z.testbit (bits q) n) -> p = q.
Proof.
  destruct p as [x], q as [y]. cbn [bits]. intros Hbits.
  f_equal. now apply Z.bits_inj'.
Qed.

Ltac setter_bits :=
  apply Protocols_eq; intros n Hn;
  unfold SetHTTP1, SetHTTP2, SetUnencryptedHTTP2,
    protoHTTP1, protoHTTP2, protoUnencryptedHTTP2;
  rewrite !testbit_setBit by lia;
  repeat match goal with
         | |- context [?j =? n] =>
             lazymatch j with
             | n => fail
             | _ => destruct (Z.eqb_spec j n)
             end
         end;
  try lia;
  destruct (n <? 8), (Z.testbit (bits _) n);
  repeat match goal with ok : bool |- _ => destruct ok end;
  reflexivity.

(** X2.  Calls of setters for different members can be swapped, and of
    two calls for the same member the later one decides. *)
Theorem setters_commute_last_wins p a b :
  SetHTTP1 (SetHTTP2 p a) b = SetHTTP2 (SetHTTP1 p b) a
  /\ SetHTTP1 (SetUnencryptedHTTP2 p a) b
     = SetUnencryptedHTTP2 (SetHTTP1 p b) a
  /\ SetHTTP2 (SetUnencryptedHTTP2 p a) b
     = SetUnencryptedHTTP2 (SetHTTP2 p b) a
  /\ SetHTTP1 (SetHTTP1 p a) b = SetHTTP1 p b
  /\ SetHTTP2 (SetHTTP2 p a) b = SetHTTP2 p b
  /\ SetUnencryptedHTTP2 (SetUnencryptedHTTP2 p a) b
     = SetUnencryptedHTTP2 p b.
Proof.
  repeat split; setter_bits.
Qed.

Lemma reenable_listed_small p :
  0 <= bits p < 8 -> reenable (listed (Protocols_String p)) = p.
Proof.
  destruct p as [z]. cbn [bits]. intros Hz. apply small_cases in Hz.
  intuition subst; vm_compute; reflexivity.
Qed.

(** X3.  Two sets built with the setters that render to the same text are
    the same set. *)
Theorem Protocols_String_injective p q :
  reachable p -> reachable q ->
  Protocols_String p = Protocols_String q -> p = q.
Proof.
  intros Hp Hq Hsame.
  rewrite <- (reenable_listed_small p (reachable_bits p Hp)).
  rewrite <- (reenable_listed_small q (reachable_bits q Hq)).
  now rewrite Hsame.
Qed.

Lemma Protocols_String_injective_witness :
  let p := SetHTTP2 (SetHTTP1 zeroProtocols true) true in
  let q := SetHTTP1 (SetHTTP1 (SetHTTP2 zeroProtocols true) false) true in
  reachable p /\ reachable q
  /\ Protocols_String p = Protocols_String q /\ p = q.
Proof.
  cbv zeta.
  assert (Hp : reachable (SetHTTP2 (SetHTTP1 zeroProtocols true) true))
    by (repeat constructor).
  assert (Hq : reachable
                 (SetHTTP1 (SetHTTP1 (SetHTTP2 zeroProtocols true) false) true))
    by (repeat constructor).
  split; [exact Hp|]. split; [exact Hq|]. split; [reflexivity|].
  exact (Protocols_String_injective _ _ Hp Hq eq_refl).
Defined.

(** X4.  The sets that can be built from the zero value with the setters
    are exactly those whose bits are below 8: no call ever sets a bit
    other than the three member bits, and each of the eight combinations
    can be built. *)
Theorem reachable_iff_three_bits p :
  reachable p <-> 0 <= bits p < 8.
Proof.
  split; [apply reachable_bits | apply small_bits_reachable].
Qed.

(** ** The request line, both ways *)

Lemma parseRequestLine_two_spaces line :
  (2 <= CountByte line " ")%nat ->
  exists method target proto,
    parseRequestLine line = (method, target, proto, true).
Proof.
  intros Hcount. unfold parseRequestLine.
  destruct (Cut line " ") as [[method rest] ok1] eqn:H1.
  pose proof (Cut_space_inv _ _ _ _ H1) as Hinv1.
  destruct ok1; [|destruct Hinv1 as (_ & _ & H0); lia].
  destruct Hinv1 as [-> Hm].
  rewrite !CountByte_app in Hcount. cbn in Hcount.
  destruct (Cut rest " ") as [[target proto] ok2] eqn:H2.
  pose proof (Cut_space_inv _ _ _ _ H2) as Hinv2.
  destruct ok2; [|destruct Hinv2 as (_ & _ & H0); lia].
  cbn. eauto.
Qed.

(** X5.  A line is split exactly when it holds at least two spaces; when
    it is not, all three texts come back empty. *)
Theorem parseRequestLine_ok_iff line :
  (snd (parseRequestLine line) = true <-> (2 <= CountByte line " ")%nat)
  /\ (snd (parseRequestLine line) = false ->
      parseRequestLine line = ("", "", "", false)).
Proof.
  split; [split|].
  - intros Hok.
    destruct (Nat.lt_ge_cases (CountByte line " ") 2) as [Hlt|Hge];
      [|exact Hge].
    rewrite (parseRequestLine_missing_space line Hlt) in Hok. discriminate.
  - intros Hge.
    destruct (parseRequestLine_two_spaces line Hge) as (m & t & p & ->).
    reflexivity.
  - intros Hok.
    destruct (Nat.lt_ge_cases (CountByte line " ") 2) as [Hlt|Hge].
    + exact (parseRequestLine_missing_space line Hlt).
    + destruct (parseRequestLine_two_spaces line Hge) as (m & t & p & Hp).
      rewrite Hp in Hok. discriminate.
Qed.

(** X6.  The three texts of a split line put the line together again:
    nothing is dropped or changed; the method and the target hold no
    space, and every space beyond the two separators is in the protocol
    text. *)
Theorem parseRequestLine_reassembles line method target proto :
  parseRequestLine line = (method, target, proto, true) ->
  line = method +:+ " " +:+ target +:+ " " +:+ proto
  /\ CountByte method " " = 0%nat
  /\ CountByte target " " = 0%nat
  /\ CountByte proto " " = (CountByte line " " - 2)%nat.
Proof.
  intros Hparse.
  destruct (parseRequestLine_ok_inv _ _ _ _ Hparse) as (-> & Hm & Ht).
  repeat split; try assumption.
  rewrite !CountByte_app, Hm, Ht. cbn. lia.
Qed.

Lemma parseRequestLine_reassembles_witness :
  parseRequestLine "GET /a b HTTP/1.1" = ("GET", "/a", "b HTTP/1.1", true)
  /\ CountByte "b HTTP/1.1" " " = 1%nat.
Proof.
  split; [reflexivity|].
  destruct (parseRequestLine_reassembles "GET /a b HTTP/1.1"
              "GET" "/a" "b HTTP/1.1" eq_refl) as (_ & _ & _ & Hp).
  exact Hp.
Defined.

(** ** Lengths and replay *)

(** X7.  The outgoing length is 0 exactly for a request without body
    (nil or [http.NoBody]), whatever its ContentLength says; with a body
    it is the ContentLength when that is not 0 and -1 otherwise. *)
Theorem requestOutgoingLength_cases req :
  (requestOutgoingLength req = 0 <-> noBody req)
  /\ (~ noBody req ->
      requestOutgoingLength req
      = if ContentLength req =? 0 then -1 else ContentLength req).
Proof.
  unfold requestOutgoingLength, noBody.
  destruct (Body req) as [| |id]; cbn.
  - split; [tauto|]. intros Hn. destruct Hn. now left.
  - split; [tauto|]. intros Hn. destruct Hn. now right.
  - destruct (Z.eqb_spec (ContentLength req) 0) as [H0|H0]; cbn.
    + split; [|reflexivity]. split; [discriminate|intros [|]; discriminate].
    + split; [|reflexivity].
      split; [intros; contradiction|intros [|]; discriminate].
Qed.

(** X8.  A request with the shape of the HTTP/2 preface is never
    replayable: PRI is none of the four methods and the request has no
    header entry that could carry an idempotency key. *)
Theorem H2_preface_not_replayable req :
  isH2UpgradeRequest req = true -> isReplayableRequest req = false.
Proof.
  intros Hpri. apply isH2UpgradeRequest_shape in Hpri as (Hm & Hh & _ & _).
  apply not_true_is_false. rewrite isReplayableRequest_spec.
  rewrite Hm. unfold idempotencyKeyed, safeMethod. rewrite Hh.
  rewrite !lookup_empty. cbn.
  intros [_ [Hsafe|[Hk|Hk]]].
  - intuition discriminate.
  - now destruct Hk.
  - now destruct Hk.
Qed.

Lemma H2_preface_not_replayable_witness :
  isReplayableRequest
    {| Method := "PRI";
       URL := {| url.Scheme := ""; url.Host := ""; url.Path := "*";
                 url.RawQuery := "" |};
       Proto := "HTTP/2.0"; ProtoMajor := 2; ProtoMinor := 0;
       Header := ∅; Body := NoBody; GetBody := None;
       ContentLength := -1; Close := true; Host := ""; RequestURI := "*" |}
  = false.
Proof.
  apply H2_preface_not_replayable. vm_compute. reflexivity.
Defined.

(** ** More on Pragma and Cache-Control *)

Lemma fixPragmaCacheControl_lookup_other (h : http_Header) key :
  key <> "Cache-Control" -> fixPragmaCacheControl h !! key = h !! key.
Proof.
  intros Hkey. destruct (pragma_decision h) as [[Hp Hcc]|Hno].
  - rewrite (fixPragmaCacheControl_adds h Hp Hcc). now apply lookup_insert_ne.
  - now rewrite fixPragmaCacheControl_keeps.
Qed.

(** X9.  Fixing a header twice is the same as fixing it once. *)
Theorem fixPragmaCacheControl_idempotent (h : http_Header) :
  fixPragmaCacheControl (fixPragmaCacheControl h) = fixPragmaCacheControl h.
Proof.
  destruct (pragma_decision h) as [[Hp Hcc]|Hno].
  - rewrite (fixPragmaCacheControl_adds h Hp Hcc).
    apply fixPragmaCacheControl_keeps. intros [_ Hnone].
    rewrite lookup_insert_eq in Hnone. discriminate.
  - now rewrite !(fixPragmaCacheControl_keeps h Hno).
Qed.

(** X10.  After the fix a Pragma entry whose first value is "no-cache"
    always comes with a Cache-Control entry, and every entry of the
    original map is still there with its values: nothing is removed, and
    the map grows by at most one entry. *)
Theorem fixPragmaCacheControl_post (h : http_Header) :
  (pragmaNoCacheFirst h ->
   is_Some (fixPragmaCacheControl h !! "Cache-Control"))
  /\ h ⊆ fixPragmaCacheControl h
  /\ (size h <= size (fixPragmaCacheControl h) <= S (size h))%nat.
Proof.
  destruct (pragma_decision h) as [[Hp Hcc]|Hno].
  - rewrite (fixPragmaCacheControl_adds h Hp Hcc).
    split; [intros _; rewrite lookup_insert_eq; eauto|].
    split; [now apply insert_subseteq|].
    rewrite map_size_insert_None by exact Hcc. lia.
  - rewrite (fixPragmaCacheControl_keeps h Hno).
    split; [|split; [reflexivity|lia]].
    intros Hp. destruct (h !! "Cache-Control") eqn:Hcc; [eauto|].
    destruct Hno. split; [exact Hp|reflexivity].
Qed.

Lemma fixPragmaCacheControl_post_witness :
  let h : http_Header := {[ "Pragma" := ["no-cache"; "x"] ]} in
  pragmaNoCacheFirst h
  /\ is_Some (fixPragmaCacheControl h !! "Cache-Control").
Proof.
  cbv zeta.
  assert (Hp : pragmaNoCacheFirst {[ "Pragma" := ["no-cache"; "x"] ]}).
  { exists ["x"]. apply lookup_singleton_eq. }
  split; [exact Hp|].
  exact (proj1 (fixPragmaCacheControl_post _) Hp).
Defined.

(** X11.  The fix gives an empty header exactly for an empty header: it
    never fills in a header block that has no field. *)
Theorem fixPragmaCacheControl_empty_iff (h : http_Header) :
  fixPragmaCacheControl h = ∅ <-> h = ∅.
Proof.
  split.
  - intros Hempty. apply map_eq. intros key. rewrite lookup_empty.
    destruct (decide (key = "Cache-Control")) as [->|Hkey].
    + destruct (h !! "Cache-Control") as [v|] eqn:Hcc; [|reflexivity].
      rewrite fixPragmaCacheControl_keeps in Hempty
        by (intros [_ Hnone]; congruence).
      rewrite Hempty, lookup_empty in Hcc. discriminate.
    + rewrite <- (fixPragmaCacheControl_lookup_other h key Hkey).
      rewrite Hempty. apply lookup_empty.
  - intros ->. reflexivity.
Qed.

(** ** The outcome of [readRequest], stage by stage *)

Section Outcome.
Context `{Collaborators}.

(** X12.  [readRequest] returns a request exactly when every stage goes
    through: the line is read and split, the method is a token, the
    version and the URL parse, the header block is read with at most one
    Host value, and [readTransfer] succeeds; the request is then the one
    [readTransfer] left, with the HTTP/2 preface rule applied. *)
Theorem readRequest_Ok_iff b req b' :
  readRequest b = (Ok req, b')
  <-> exists s b1 method target proto major minor u h b2 q,
      tp_ReadLine b = (Ok s, b1)
      /\ parseRequestLine s = (method, target, proto, true)
      /\ validMethod method = true
      /\ ParseHTTPVersion proto = Some (major, minor)
      /\ ParseRequestURI (parsedText method target) = Ok u
      /\ tp_ReadMIMEHeader b1 = (Ok h, b2)
      /\ (length (values h "Host") <= 1)%nat
      /\ readTransfer
           (requestAtTransfer method target proto major minor u h) b2
         = (Ok q, b')
      /\ req = forceH2Upgrade q.
Proof.
  split; [apply readRequest_Ok_inv|].
  intros (s & b1 & method & target & proto & major & minor & u & h & b2 & q
          & Hline & Hparse & Hmethod & Hvers & Hurl & Hhdr & Hhost
          & Htransfer & ->).
  rewrite (readRequest_to_transfer _ _ _ _ _ _ _ _ _ _ _
             Hline Hparse Hmethod Hvers Hurl Hhdr Hhost), Htransfer.
  reflexivity.
Qed.

Lemma readFailure_sound b e b' :
  readFailure b e b' -> readRequest b = (Err e, b').
Proof.
  intros [e0 b0 Hline
         |s b1 m t p Hline Hparse
         |s b1 m t p Hline Hparse Hmethod
         |s b1 m t p Hline Hparse Hmethod Hvers
         |s b1 m t p major minor e0 Hline Hparse Hmethod Hvers Hurl
         |s b1 m t p major minor u e0 b2 Hline Hparse Hmethod Hvers Hurl Hhdr
         |s b1 m t p major minor u h b2 Hline Hparse Hmethod Hvers Hurl Hhdr
            Hhost
         |s b1 m t p major minor u h b2 e0 b3 Hline Hparse Hmethod Hvers Hurl
            Hhdr Hhost Htransfer].
  - exact (readRequest_start_line_error _ _ _ Hline).
  - exact (readRequest_malformed _ _ _ _ _ _ Hline Hparse).
  - exact (readRequest_invalid_method _ _ _ _ _ _ Hline Hparse Hmethod).
  - exact (readRequest_bad_version _ _ _ _ _ _ Hline Hparse Hmethod Hvers).
  - exact (readRequest_bad_target _ _ _ _ _ _ _ _ _
             Hline Hparse Hmethod Hvers Hurl).
  - exact (readRequest_header_error _ _ _ _ _ _ _ _ _ _ _
             Hline Hparse Hmethod Hvers Hurl Hhdr).
  - exact (readRequest_too_many_Host _ _ _ _ _ _ _ _ _ _ _
             Hline Hparse Hmethod Hvers Hurl Hhdr Hhost).
  - rewrite (readRequest_to_transfer _ _ _ _ _ _ _ _ _ _ _
               Hline Hparse Hmethod Hvers Hurl Hhdr Hhost), Htransfer.
    reflexivity.
Qed.

Lemma readFailure_complete b e b' :
  readRequest b = (Err e, b') -> readFailure b e b'.
Proof.
  intros Hrun.
  destruct (tp_ReadLine b) as [[s|e0] b1] eqn:Hline; cycle 1.
  { rewrite (readRequest_start_line_error _ _ _ Hline) in Hrun.
    injection Hrun as <- <-. now apply fail_line. }
  destruct (parseRequestLine s) as [[[method target] proto] ok] eqn:Hparse.
  destruct ok; cycle 1.
  { rewrite (readRequest_malformed _ _ _ _ _ _ Hline Hparse) in Hrun.
    injection Hrun as <- <-. eapply fail_malformed; eassumption. }
  destruct (validMethod method) eqn:Hmethod; cycle 1.
  { rewrite (readRequest_invalid_method _ _ _ _ _ _ Hline Hparse Hmethod)
      in Hrun.
    injection Hrun as <- <-. eapply fail_method; eassumption. }
  destruct (ParseHTTPVersion proto) as [[major minor]|] eqn:Hvers; cycle 1.
  { rewrite (readRequest_bad_version _ _ _ _ _ _ Hline Hparse Hmethod Hvers)
      in Hrun.
    injection Hrun as <- <-. eapply fail_version; eassumption. }
  destruct (ParseRequestURI (parsedText method target)) as [u|e0] eqn:Hurl;
    cycle 1.
  { rewrite (readRequest_bad_target _ _ _ _ _ _ _ _ _
               Hline Hparse Hmethod Hvers Hurl) in Hrun.
    injection Hrun as <- <-. eapply fail_target; eassumption. }
  destruct (tp_ReadMIMEHeader b1) as [[h|e0] b2] eqn:Hhdr; cycle 1.
  { rewrite (readRequest_header_error _ _ _ _ _ _ _ _ _ _ _
               Hline Hparse Hmethod Hvers Hurl Hhdr) in Hrun.
    injection Hrun as <- <-. eapply fail_header; eassumption. }
  destruct (Nat.le_gt_cases (length (values h "Host")) 1) as [Hhost|Hhost];
    cycle 1.
  { rewrite (readRequest_too_many_Host _ _ _ _ _ _ _ _ _ _ _
               Hline Hparse Hmethod Hvers Hurl Hhdr Hhost) in Hrun.
    injection Hrun as <- <-. eapply fail_Host; eassumption. }
  rewrite (readRequest_to_transfer _ _ _ _ _ _ _ _ _ _ _
             Hline Hparse Hmethod Hvers Hurl Hhdr Hhost) in Hrun.
  destruct (readTransfer _ b2) as [[q|e0] b3] eqn:Htransfer; [discriminate|].
  injection Hrun as <- <-. eapply fail_transfer; eassumption.
Qed.

(** X13.  [readRequest] fails in exactly eight ways, told apart by the
    first stage that fails: the read of the line (its error unchanged),
    a line that does not split, a method that is no token, a version or
    a URL that does not parse, the read of the header block, more than
    one Host value, and [readTransfer]; errors of collaborators met after
    the line come back with [io.EOF] turned into [io.ErrUnexpectedEOF],
    and an error found in the start line leaves the header block
    unread. *)
Theorem readRequest_Err_iff b e b' :
  readRequest b = (Err e, b') <-> readFailure b e b'.
Proof. split; [apply readFailure_complete | apply readFailure_sound]. Qed.

End Outcome.

(** ** What a request that was read carries *)

Lemma Scripted_readTransfer_keeps_head :
  @readTransfer_keeps_head Scripted.collaborators.
Proof.
  intros q b q' b'. cbn. unfold Scripted.readTransfer.
  destruct (Header q !! "Content-Length"), (Header q !! "Transfer-Encoding");
    try discriminate.
  intros [= <- <-]. cbn. repeat split.
Qed.

Lemma forceH2Upgrade_head req :
  ProtoMajor (forceH2Upgrade req) = ProtoMajor req
  /\ ProtoMinor (forceH2Upgrade req) = ProtoMinor req
  /\ Host (forceH2Upgrade req) = Host req
  /\ Body (forceH2Upgrade req) = Body req.
Proof.
  unfold forceH2Upgrade. destruct (isH2UpgradeRequest req); cbn; auto.
Qed.

Section Head.
Context `{Collaborators}.
Hypothesis Hframe : readTransfer_keeps_head.

(** A successful read, with the request seen through the frame of
    [readTransfer]. *)
Lemma readRequest_head b req b' :
  readRequest b = (Ok req, b') ->
  exists s b1 u h b2,
    tp_ReadLine b = (Ok s, b1)
    /\ parseRequestLine s = (Method req, RequestURI req, Proto req, true)
    /\ validMethod (Method req) = true
    /\ ParseHTTPVersion (Proto req) = Some (ProtoMajor req, ProtoMinor req)
    /\ ParseRequestURI (parsedText (Method req) (RequestURI req)) = Ok u
    /\ URL req = keptURL (Method req) (RequestURI req) u
    /\ tp_ReadMIMEHeader b1 = (Ok h, b2)
    /\ Host req = (if String.eqb (url.Host (URL req)) ""
                   then getFromHeader h "Host" else url.Host (URL req)).
Proof.
  intros Hrun.
  apply readRequest_Ok_inv in Hrun
    as (s & b1 & method & target & proto & major & minor & u & h & b2 & q
        & Hline & Hparse & Hmethod & Hvers & Hurl & Hhdr & _ & Htransfer & ->).
  destruct (forceH2Upgrade_fields q) as (-> & -> & -> & _ & ->).
  destruct (forceH2Upgrade_head q) as (-> & -> & -> & _).
  apply Hframe in Htransfer as (-> & -> & -> & -> & -> & -> & ->).
  cbn [requestAtTransfer Method RequestURI Proto ProtoMajor ProtoMinor URL Host].
  exists s, b1, u, h, b2. repeat split; assumption.
Qed.

(** X14.  The method, the target and the protocol text of a request that
    was read put the line that was read together again; the method is a
    valid token, method and target hold no space, and the two version
    numbers are those the version parser gives for the protocol text. *)
Theorem readRequest_carries_line b req b' :
  readRequest b = (Ok req, b') ->
  exists b1,
    tp_ReadLine b
    = (Ok (Method req +:+ " " +:+ RequestURI req +:+ " " +:+ Proto req), b1)
    /\ validMethod (Method req) = true
    /\ CountByte (Method req) " " = 0%nat
    /\ CountByte (RequestURI req) " " = 0%nat
    /\ ParseHTTPVersion (Proto req) = Some (ProtoMajor req, ProtoMinor req).
Proof.
  intros Hrun.
  destruct (readRequest_head _ _ _ Hrun)
    as (s & b1 & u & h & b2 & Hline & Hparse & Hmethod & Hvers & _).
  destruct (parseRequestLine_ok_inv _ _ _ _ Hparse) as (-> & Hm & Ht).
  exists b1. repeat split; assumption.
Qed.

(** X16.  For every method other than CONNECT the URL parser is given the
    target as it stands in the line, and the request's URL is its answer
    with nothing changed. *)
Theorem readRequest_target_as_is b req b' :
  readRequest b = (Ok req, b') ->
  Method req <> "CONNECT" ->
  ParseRequestURI (RequestURI req) = Ok (URL req).
Proof.
  intros Hrun Hmethod.
  destruct (readRequest_head _ _ _ Hrun)
    as (s & b1 & u & h & b2 & _ & _ & _ & _ & Hurl & Hkept & _).
  unfold parsedText, keptURL, justAuthority in *.
  destruct (String.eqb_spec (Method req) "CONNECT"); [contradiction|].
  cbn [andb] in *. now rewrite Hkept.
Qed.

(** X17.  A request that was read asks for an HTTP/1.0 keep-alive only
    if its protocol text parses as version 1.0. *)
Theorem readRequest_keepalive_only_1_0 b req b' :
  readRequest b = (Ok req, b') ->
  requestWantsHttp10KeepAlive req = true ->
  ParseHTTPVersion (Proto req) = Some (1, 0).
Proof.
  intros Hrun Hwants.
  destruct (readRequest_head _ _ _ Hrun)
    as (s & b1 & u & h & b2 & _ & _ & _ & Hvers & _).
  unfold requestWantsHttp10KeepAlive in Hwants.
  destruct (Z.eqb_spec (ProtoMajor req) 1) as [Hmaj|];
    [|discriminate].
  destruct (Z.eqb_spec (ProtoMinor req) 0) as [Hmin|];
    [|discriminate].
  now rewrite Hvers, Hmaj, Hmin.
Qed.

End Head.

Lemma Scripted_readTransfer_keeps_URL_Host :
  @readTransfer_keeps_URL_Host Scripted.collaborators.
Proof.
  intros q b q' b' Htransfer.
  destruct (Scripted_readTransfer_keeps_head q b q' b' Htransfer)
    as (_ & _ & _ & _ & _ & Hurl & Hhost).
  split; assumption.
Qed.

(** X15.  A host in the URL of a request that was read decides the
    request's Host, whatever the Host header says; only when the URL has
    no host does the Host come from the header block that was read right
    after the line of this request. *)
Theorem readRequest_Host `{Collaborators} b req b' :
  readTransfer_keeps_URL_Host ->
  readRequest b = (Ok req, b') ->
  exists s b1 h b2,
    tp_ReadLine b = (Ok s, b1)
    /\ tp_ReadMIMEHeader b1 = (Ok h, b2)
    /\ (url.Host (URL req) <> "" -> Host req = url.Host (URL req))
    /\ (url.Host (URL req) = "" -> Host req = getFromHeader h "Host").
Proof.
  intros Hframe Hrun.
  apply readRequest_Ok_inv in Hrun
    as (s & b1 & method & target & proto & major & minor & u & h & b2 & q
        & Hline & _ & _ & _ & _ & Hhdr & _ & Htransfer & ->).
  destruct (forceH2Upgrade_fields q) as (_ & _ & -> & _).
  destruct (forceH2Upgrade_head q) as (_ & _ & -> & _).
  apply Hframe in Htransfer as (-> & ->).
  cbn [requestAtTransfer URL Host].
  exists s, b1, h, b2. split; [exact Hline|]. split; [exact Hhdr|].
  destruct (String.eqb_spec (url.Host (keptURL method target u)) "")
    as [Hempty|Hsome].
  - split; [contradiction|reflexivity].
  - split; [reflexivity|contradiction].
Qed.

(** X18.  A request that [readRequest] returns with the shape of the
    HTTP/2 preface always wants the connection closed, whatever its
    Connection header, and its outgoing length is never positive: 0
    without a body, -1 with one. *)
Theorem readRequest_preface_intent `{Collaborators} b req b' :
  readRequest b = (Ok req, b') ->
  isH2UpgradeRequest req = true ->
  requestWantsClose req = true
  /\ requestOutgoingLength req
     = if ReadCloser_eqb (Body req) nilBody || ReadCloser_eqb (Body req) NoBody
       then 0 else -1.
Proof.
  intros Hrun Hpri.
  apply readRequest_Ok_inv in Hrun
    as (s & b1 & method & target & proto & major & minor & u & h & b2 & q
        & _ & _ & _ & _ & _ & _ & _ & _ & ->).
  rewrite isH2UpgradeRequest_forceH2Upgrade in Hpri.
  unfold forceH2Upgrade. rewrite Hpri.
  unfold requestWantsClose, requestOutgoingLength.
  cbn [set_ContentLength_Close Close ContentLength Body].
  split; [reflexivity|].
  destruct (_ || _); reflexivity.
Qed.

Lemma readRequest_carries_line_witness :
  exists req,
    @readRequest Scripted.collaborators
      [Scripted.aLine "GET /index.html HTTP/1.0";
       Scripted.aHeaderBlock {[ "Connection" := ["keep-alive"] ]}]
    = (Ok req, [])
    /\ Method req +:+ " " +:+ RequestURI req +:+ " " +:+ Proto req
       = "GET /index.html HTTP/1.0"
    /\ ProtoMajor req = 1 /\ ProtoMinor req = 0.
Proof.
  destruct (@readRequest Scripted.collaborators
              [Scripted.aLine "GET /index.html HTTP/1.0";
               Scripted.aHeaderBlock {[ "Connection" := ["keep-alive"] ]}])
    as [[req|e] b'] eqn:Hrun; [|vm_compute in Hrun; discriminate].
  destruct (@readRequest_carries_line Scripted.collaborators
              Scripted_readTransfer_keeps_head _ _ _ Hrun)
    as (b1 & Hline & _ & _ & _ & Hvers).
  pose proof Hrun as Hreq. vm_compute in Hreq. injection Hreq as <- <-.
  eexists. split; [reflexivity|].
  split; [reflexivity|]. split; reflexivity.
Defined.

Lemma readRequest_Host_witness :
  (exists req,
      @readRequest Scripted.collaborators
        [Scripted.aLine "GET http://example.com/x HTTP/1.1";
         Scripted.aHeaderBlock {[ "Host" := ["doesntmatter"] ]}]
      = (Ok req, [])
      /\ url.Host (URL req) <> ""
      /\ Host req = "example.com")
  /\ (exists req,
         @readRequest Scripted.collaborators
           [Scripted.aLine "GET /x HTTP/1.1";
            Scripted.aHeaderBlock {[ "Host" := ["www.example.org"] ]}]
         = (Ok req, [])
         /\ url.Host (URL req) = ""
         /\ Host req = "www.example.org").
Proof.
  split.
  - destruct (@readRequest Scripted.collaborators
                [Scripted.aLine "GET http://example.com/x HTTP/1.1";
                 Scripted.aHeaderBlock {[ "Host" := ["doesntmatter"] ]}])
      as [[req|e] b'] eqn:Hrun; [|vm_compute in Hrun; discriminate].
    destruct (@readRequest_Host Scripted.collaborators _ _ _
                Scripted_readTransfer_keeps_URL_Host Hrun)
      as (s & b1 & h & b2 & _ & _ & Hurl & _).
    pose proof Hrun as Hreq. vm_compute in Hreq. injection Hreq as <- <-.
    eexists. split; [reflexivity|].
    assert (Hne : "example.com" <> "") by discriminate.
    split; [exact Hne|]. exact (Hurl Hne).
  - destruct (@readRequest Scripted.collaborators
                [Scripted.aLine "GET /x HTTP/1.1";
                 Scripted.aHeaderBlock {[ "Host" := ["www.example.org"] ]}])
      as [[req|e] b'] eqn:Hrun; [|vm_compute in Hrun; discriminate].
    destruct (@readRequest_Host Scripted.collaborators _ _ _
                Scripted_readTransfer_keeps_URL_Host Hrun)
      as (s & b1 & h & b2 & Hline & Hhdr & _ & Hheader).
    injection Hline as <- <-. injection Hhdr as <- <-.
    pose proof Hrun as Hreq. vm_compute in Hreq. injection Hreq as <- <-.
    eexists. split; [reflexivity|]. split; [reflexivity|].
    rewrite (Hheader eq_refl). vm_compute. reflexivity.
Defined.

Lemma readRequest_target_as_is_witness :
  exists req,
    @readRequest Scripted.collaborators
      [Scripted.aLine "GET /a?b=c HTTP/1.1"; Scripted.aHeaderBlock ∅]
    = (Ok req, [])
    /\ Method req <> "CONNECT"
    /\ Scripted.ParseRequestURI "/a?b=c" = Ok (URL req).
Proof.
  destruct (@readRequest Scripted.collaborators
              [Scripted.aLine "GET /a?b=c HTTP/1.1"; Scripted.aHeaderBlock ∅])
    as [[req|e] b'] eqn:Hrun; [|vm_compute in Hrun; discriminate].
  pose proof (@readRequest_target_as_is Scripted.collaborators
                Scripted_readTransfer_keeps_head _ _ _ Hrun) as Hurl.
  pose proof Hrun as Hreq. vm_compute in Hreq. injection Hreq as <- <-.
  eexists. split; [reflexivity|].
  assert (Hne : "GET" <> "CONNECT") by discriminate.
  split; [exact Hne|]. exact (Hurl Hne).
Defined.

Lemma readRequest_keepalive_only_1_0_witness :
  exists req,
    @readRequest Scripted.collaborators
      [Scripted.aLine "GET / HTTP/1.0";
       Scripted.aHeaderBlock {[ "Connection" := ["Keep-Alive"] ]}]
    = (Ok req, [])
    /\ @requestWantsHttp10KeepAlive Scripted.collaborators req = true
    /\ Scripted.ParseHTTPVersion (Proto req) = Some (1, 0).
Proof.
  destruct (@readRequest Scripted.collaborators
              [Scripted.aLine "GET / HTTP/1.0";
               Scripted.aHeaderBlock {[ "Connection" := ["Keep-Alive"] ]}])
    as [[req|e] b'] eqn:Hrun; [|vm_compute in Hrun; discriminate].
  pose proof (@readRequest_keepalive_only_1_0 Scripted.collaborators
                Scripted_readTransfer_keeps_head _ _ _ Hrun) as Hvers.
  pose proof Hrun as Hreq. vm_compute in Hreq. injection Hreq as <- <-.
  eexists. split; [reflexivity|].
  assert (Hwants : @requestWantsHttp10KeepAlive Scripted.collaborators
                     {| Method := "GET";
                        URL := {| url.Scheme := ""; url.Host := "";
                                  url.Path := "/"; url.RawQuery := "" |};
                        Proto := "HTTP/1.0"; ProtoMajor := 1; ProtoMinor := 0;
                        Header := {[ "Connection" := ["Keep-Alive"] ]};
                        Body := NoBody; GetBody := None;
                        ContentLength := 0; Close := false;
                        Host := ""; RequestURI := "/" |} = true)
    by (vm_compute; reflexivity).
  split; [exact Hwants|]. exact (Hvers Hwants).
Defined.

Lemma readRequest_preface_intent_witness :
  exists req,
    @readRequest Scripted.collaborators
      [Scripted.aLine "PRI * HTTP/2.0"; Scripted.aHeaderBlock ∅]
    = (Ok req, [])
    /\ @requestWantsClose Scripted.collaborators req = true
    /\ requestOutgoingLength req = 0.
Proof.
  destruct (@readRequest Scripted.collaborators
              [Scripted.aLine "PRI * HTTP/2.0"; Scripted.aHeaderBlock ∅])
    as [[req|e] b'] eqn:Hrun; [|vm_compute in Hrun; discriminate].
  pose proof (@readRequest_preface_intent Scripted.collaborators _ _ _ Hrun)
    as Hintent.
  pose proof Hrun as Hreq. vm_compute in Hreq. injection Hreq as <- <-.
  eexists. split; [reflexivity|].
  exact (Hintent eq_refl).
Defined.

(** ** Protocol switch responses *)

Section SwitchingFacts.
Variable HeaderValuesContainsToken : list string -> string -> bool.

Lemma Header_Get_nonempty (h : http_Header) key :
  Header_Get h key <> ""
  <-> exists v rest, h !! key = Some (v :: rest) /\ v <> "".
Proof.
  unfold Header_Get. destruct (h !! key) as [[|v rest]|].
  - split; [contradiction | intros (? & ? & [=] & _)].
  - split; [eauto | intros (? & ? & [= <- _] & Hv); exact Hv].
  - split; [contradiction | intros (? & ? & [=] & _)].
Qed.

(** X19.  A response announces a protocol switch exactly when its status
    is 101, the first value of its Upgrade field is not empty, and its
    Connection values hold the token "Upgrade"; a response whose Upgrade
    field is absent, has no value or has an empty first value never
    does. *)
Theorem isProtocolSwitchResp_iff (r : resp.Response) :
  isProtocolSwitchResp HeaderValuesContainsToken r = true
  <-> resp.StatusCode r = 101
      /\ (exists v rest,
             resp.Header r !! "Upgrade" = Some (v :: rest) /\ v <> "")
      /\ HeaderValuesContainsToken (values (resp.Header r) "Connection")
           "Upgrade" = true.
Proof.
  unfold isProtocolSwitchResp, isProtocolSwitchResponse,
    isProtocolSwitchHeader, StatusSwitchingProtocols.
  rewrite !andb_true_iff, Z.eqb_eq, negb_true_iff, <- Header_Get_nonempty.
  destruct (String.eqb_spec (Header_Get (resp.Header r) "Upgrade") "");
    intuition congruence.
Qed.

(** X20.  Fixing Pragma and Cache-Control never changes whether a header
    announces a protocol switch. *)
Theorem isProtocolSwitchHeader_after_fix (h : http_Header) :
  isProtocolSwitchHeader HeaderValuesContainsToken (fixPragmaCacheControl h)
  = isProtocolSwitchHeader HeaderValuesContainsToken h.
Proof.
  unfold isProtocolSwitchHeader, Header_Get, values.
  now rewrite !fixPragmaCacheControl_lookup_other by discriminate.
Qed.

End SwitchingFacts.

(** ** Body read errors *)

(** X21.  [checkRequestBodyError] answers true exactly for an error whose
    dynamic type is the struct net/http.requestBodyReadError or a pointer
    to it (a pointer to such a pointer is not looked through); it then
    hands back a fresh error with the same text, and in every other case,
    a nil error included, it hands back nil. *)
Theorem checkRequestBodyError_iff (err : option (rtype * string)) :
  (snd (checkRequestBodyError err) = true
   <-> exists t text, err = Some (t, text) /\ isBodyReadErrorType t)
  /\ (forall t text,
         err = Some (t, text) -> isBodyReadErrorType t ->
         checkRequestBodyError err = (Some (Errorf text), true))
  /\ (snd (checkRequestBodyError err) = false ->
      checkRequestBodyError err = (None, false)).
Proof.
  assert (Hyes : forall t text,
             isBodyReadErrorType t ->
             checkRequestBodyError (Some (t, text)) = (Some (Errorf text), true)).
  { intros t text [->|(pkgPath & name & ->)]; reflexivity. }
  split; [split|split].
  - destruct err as [[t text]|]; [|discriminate].
    intros Hok. exists t, text. split; [reflexivity|].
    unfold checkRequestBodyError in Hok.
    destruct t as [[|] pkgPath name
                  | pkgPath name [[|] pkgPath' name' | pkgPath' name' elem]];
      cbn [rtype_Kind rtype_Elem rtype_PkgPath rtype_Name Kind_eqb negb]
        in Hok;
      try discriminate.
    + destruct (String.eqb_spec pkgPath "net/http") as [->|];
        [|discriminate].
      destruct (String.eqb_spec name "requestBodyReadError") as [->|];
        [|discriminate].
      now left.
    + destruct (String.eqb_spec pkgPath' "net/http") as [->|];
        [|discriminate].
      destruct (String.eqb_spec name' "requestBodyReadError") as [->|];
        [|discriminate].
      right. eauto.
  - intros (t & text & -> & Ht). now rewrite (Hyes t text Ht).
  - intros t text -> Ht. exact (Hyes t text Ht).
  - destruct err as [[t text]|]; [|reflexivity].
    unfold checkRequestBodyError.
    destruct (negb (Kind_eqb (rtype_Kind _) Struct)); [reflexivity|].
    destruct (negb (String.eqb (rtype_PkgPath _) _)); [reflexivity|].
    destruct (negb (String.eqb (rtype_Name _) _)); [reflexivity|].
    discriminate.
Qed.

Example pointer_to_pointer_not_recognised :
  checkRequestBodyError
    (Some (pointerType "" ""
             (pointerType "" ""
                (plainType true "net/http" "requestBodyReadError")),
           "read failed"))
  = (None, false).
Proof. reflexivity. Qed.
